(** * Power triangle with harmonics: a model of [power_triangle_harmonics.py]

    The program reads three numbers (active power P, cos(phi), harmonic
    distortion D), computes the magnitudes of the power triangle, draws six
    arrows in a 3D axes and fills a text report.

    Numbers.  The spec gives the three inputs as reals and states its
    formulas over the reals, so the calculation, the arrows and the report
    are modelled over [R]: a Python [float] / numpy [float64] is read as the
    real number it stands for, and an operation whose float result is [inf]
    or [nan] (a division by zero, an arccos outside [-1,1], the square root
    of a negative, a tangent at a pole) has no real value and ends the
    computation with [NotReal].  Rounding, overflow and underflow are not
    part of this reading: a property proved over [R] is a property of the
    program's formulas in exact arithmetic.

    What the doubles themselves do at the ends of their range is computed
    apart, in the module [Float64], on binary64 numbers: there Python's [**]
    raises OverflowError, a square underflows to zero and a division by
    zero gives [inf].  The theorems of the last section evaluate lines 12-27
    and 87 there. *)

From Stdlib Require Import Reals Lra Lia ZArith List String Ascii Bool.
From Corelib Require PrimFloat.
Import ListNotations.

Local Open Scope R_scope.

(** ** Outcomes of a Python call *)

Inductive exn : Type :=
| ValueError (msg : string)   (* the only exception the program raises or catches *)
| OverflowError               (* a float power whose result is out of range *)
| UnboundLocalError           (* a local variable read before any assignment *)
| IndexError                  (* a list index out of range *)
| NotReal (op : string).      (* a float result outside the reals: inf or nan *)

Inductive outcome (A : Type) : Type :=
| Return (a : A)
| Raise (e : exn).

Arguments Return {A} a.
Arguments Raise {A} e.

Definition obind {A B : Type} (m : outcome A) (k : A -> outcome B) : outcome B :=
  match m with
  | Return a => k a
  | Raise e => Raise e
  end.

Declare Scope py_scope.
Delimit Scope py_scope with py.

Notation "x <- m ;; k" := (obind m (fun x => k))
  (at level 61, m at next level, right associativity) : py_scope.

(** ** Comparisons and numpy operations on reals *)

Definition Rleb (x y : R) : bool := if Rle_dec x y then true else false.
Definition Rltb (x y : R) : bool := if Rlt_dec x y then true else false.
Definition Reqb (x y : R) : bool := if Req_dec_T x y then true else false.

(** [np.arccos]: nan outside [-1, 1]. *)
Definition np_arccos (x : R) : outcome R :=
  if Rleb (-1) x && Rleb x 1 then Return (acos x) else Raise (NotReal "arccos").

(** [np.tan]: no value where the cosine vanishes. *)
Definition np_tan (x : R) : outcome R :=
  if Reqb (cos x) 0 then Raise (NotReal "tan") else Return (tan x).

(** [np.sqrt]: nan on a negative argument. *)
Definition np_sqrt (x : R) : outcome R :=
  if Rleb 0 x then Return (sqrt x) else Raise (NotReal "sqrt").

(** [x / y] with a numpy divisor: numpy returns inf or nan when the divisor
    is zero (with a RuntimeWarning, no exception); neither is a real, so
    the reading over [R] stops there. *)
Definition np_divide (x y : R) : outcome R :=
  if Reqb y 0 then Raise (NotReal "divide") else Return (x / y).

(** [np.degrees]. *)
Definition np_degrees (x : R) : R := x * (180 / PI).

(** Python's [max(a, b)]: the first argument unless the second is greater. *)
Definition py_max (a b : R) : R := if Rltb a b then b else a.

(** ** The calculation (update_plot, lines 11-27) *)

(** The test of line 12: [P1_mag <= 0 or D_mag < 0 or not (0 < cos_fi < 1)]. *)
Definition out_of_range (P1_mag cos_fi D_mag : R) : bool :=
  Rleb P1_mag 0 || Rltb D_mag 0 || negb (Rltb 0 cos_fi && Rltb cos_fi 1).

Definition out_of_range_msg : string :=
  "Values out of range. P1 must be greater than 0, D must be greater than or equal to 0, and cos(fi) between 0 and 1.".

(** The local variables of [update_plot] after line 27. *)
Record Magnitudes : Type := mkMagnitudes {
  fi : R;
  Q1_mag : R;
  S1_mag : R;
  S2_mag : R;
  Q2_mag : R;
  theta : R
}.

(** Lines 15-27, "Necessary calculations". *)
Definition calculations (P1_mag cos_fi D_mag : R) : outcome Magnitudes :=
  (fi <- np_arccos cos_fi ;;
   t <- np_tan fi ;;
   let Q1_mag := P1_mag * t in
   S1_mag <- np_sqrt (P1_mag ^ 2 + Q1_mag ^ 2) ;;
   if Reqb D_mag 0 then
     Return (mkMagnitudes fi Q1_mag S1_mag 0 0 0)
   else
     S2_mag <- np_sqrt (S1_mag ^ 2 + D_mag ^ 2) ;;
     Q2_mag <- np_sqrt (Q1_mag ^ 2 + D_mag ^ 2) ;;
     r <- np_divide P1_mag S2_mag ;;
     theta <- np_arccos r ;;
     Return (mkMagnitudes fi Q1_mag S1_mag S2_mag Q2_mag theta))%py.

(** ** Vectors (numpy arrays of three components) *)

Record ndarray : Type := np_array { item0 : R; item1 : R; item2 : R }.

Definition ndarray_add (u v : ndarray) : ndarray :=
  np_array (item0 u + item0 v) (item1 u + item1 v) (item2 u + item2 v).

Definition ndarray_sub (u v : ndarray) : ndarray :=
  np_array (item0 u - item0 v) (item1 u - item1 v) (item2 u - item2 v).

(** The Euclidean norm, for the statements about the lengths of the arrows. *)
Definition norm (v : ndarray) : R :=
  sqrt (item0 v ^ 2 + item1 v ^ 2 + item2 v ^ 2).

(** The local arrays of [update_plot] after line 35. *)
Record Vectors : Type := mkVectors {
  vec_P : ndarray;
  vec_Q1 : ndarray;
  vec_S1 : ndarray;
  vec_D : ndarray;
  vec_S2 : ndarray;
  vec_Q2 : ndarray
}.

(** Lines 29-35, "Coordinates for the vectors". *)
Definition coordinates (P1_mag Q1_mag D_mag : R) : Vectors :=
  let P := np_array P1_mag 0 0 in
  let Q1 := np_array 0 Q1_mag 0 in
  let S1 := ndarray_add P Q1 in
  let D := np_array 0 0 D_mag in
  let S2 := ndarray_add S1 D in
  let Q2 := ndarray_sub S2 P in
  mkVectors P Q1 S1 D S2 Q2.

(** ** The plot: artists, axes, the report and the input boxes *)

(** What one call of [ax.quiver] adds to the axes: an arrow from the point
    (X, Y, Z) along (U, V, W). *)
Record Artist : Type := mkArtist {
  qX : R; qY : R; qZ : R;
  qU : R; qV : R; qW : R;
  color : string;
  label : string;
  arrow_length_ratio : R
}.


Definition Artist_eq_dec (a b : Artist) : {a = b} + {a <> b}.
Proof.
  decide equality; try apply Req_dec_T; apply string_dec.
Defined.

Record Legend : Type := mkLegend {
  loc : string;
  bbox_to_anchor : R * R;
  handles : list string          (* the labels of the artists when it was made *)
}.

Record Axes : Type := mkAxes {
  collections : list Artist;     (* the arrows *)
  lines : list Artist;           (* plain lines; the program draws none *)
  xlim : R * R;
  ylim : R * R;
  zlim : R * R;
  xlabel : string;
  ylabel : string;
  zlabel : string;
  title : string;
  legend : option Legend
}.

(** A piece of an f-string: literal text, or a number under [:.2f]. *)
Inductive piece : Type :=
| Lit (s : string)
| Fix2 (x : R).

Definition fstring : Type := list piece.

(** The state the callbacks share: the axes, the read-only report box
    [text_box], the text of the three input boxes [textboxes], the number of
    calls of [fig.canvas.draw()] and what was printed.  The program has one
    axes and one figure, so the parameters [ax] and [fig] of [update_plot]
    and [submit] are these fields of the world and not arguments here. *)
Record World : Type := mkWorld {
  ax : Axes;
  text_box : fstring;
  textboxes : list string;
  canvas_draws : nat;
  stdout : list string
}.

Definition with_ax (f : Axes -> Axes) (w : World) : World :=
  mkWorld (f (ax w)) (text_box w) (textboxes w) (canvas_draws w) (stdout w).

(** ** Stateful calls: the world is threaded, and kept when a call raises *)

Definition M (A : Type) : Type := World -> outcome A * World.

Definition ret {A : Type} (a : A) : M A := fun w => (Return a, w).

Definition raise {A : Type} (e : exn) : M A := fun w => (Raise e, w).

Definition bind {A B : Type} (m : M A) (k : A -> M B) : M B :=
  fun w =>
    match m w with
    | (Return a, w') => k a w'
    | (Raise e, w') => (Raise e, w')
    end.

Definition lift {A : Type} (o : outcome A) : M A := fun w => (o, w).

Definition modify (f : World -> World) : M unit := fun w => (Return tt, f w).

Definition gets {A : Type} (f : World -> A) : M A := fun w => (Return (f w), w).

(** [try: body except ValueError as e: handler(e)]. *)
Definition try_except_ValueError (body : M unit) (handler : string -> M unit) : M unit :=
  fun w =>
    match body w with
    | (Raise (ValueError msg), w') => handler msg w'
    | r => r
    end.

Declare Scope st_scope.
Delimit Scope st_scope with st.

Notation "x <- m ;; k" := (bind m (fun x => k))
  (at level 61, m at next level, right associativity) : st_scope.
Notation "m ;; k" := (bind m (fun _ => k))
  (at level 61, right associativity) : st_scope.

(** ** The axes' methods *)

(** [artist.remove()]: the artist leaves the axes that hold it. *)
Definition Artist_remove (a : Artist) (x : Axes) : Axes :=
  mkAxes (remove Artist_eq_dec a (collections x)) (remove Artist_eq_dec a (lines x))
         (xlim x) (ylim x) (zlim x) (xlabel x) (ylabel x) (zlabel x) (title x) (legend x).

(** [ax.quiver(X, Y, Z, U, V, W, color=, label=, arrow_length_ratio=0.12)]. *)
Definition quiver (x y z u v w : R) (c l : string) : M unit :=
  modify (with_ax (fun a =>
    mkAxes (collections a ++ [mkArtist x y z u v w c l (12 / 100)]) (lines a)
           (xlim a) (ylim a) (zlim a) (xlabel a) (ylabel a) (zlabel a) (title a) (legend a))).

Definition set_xlim (l : R * R) : M unit :=
  modify (with_ax (fun a =>
    mkAxes (collections a) (lines a) l (ylim a) (zlim a)
           (xlabel a) (ylabel a) (zlabel a) (title a) (legend a))).

Definition set_ylim (l : R * R) : M unit :=
  modify (with_ax (fun a =>
    mkAxes (collections a) (lines a) (xlim a) l (zlim a)
           (xlabel a) (ylabel a) (zlabel a) (title a) (legend a))).

Definition set_zlim (l : R * R) : M unit :=
  modify (with_ax (fun a =>
    mkAxes (collections a) (lines a) (xlim a) (ylim a) l
           (xlabel a) (ylabel a) (zlabel a) (title a) (legend a))).

Definition set_xlabel (s : string) : M unit :=
  modify (with_ax (fun a =>
    mkAxes (collections a) (lines a) (xlim a) (ylim a) (zlim a)
           s (ylabel a) (zlabel a) (title a) (legend a))).

Definition set_ylabel (s : string) : M unit :=
  modify (with_ax (fun a =>
    mkAxes (collections a) (lines a) (xlim a) (ylim a) (zlim a)
           (xlabel a) s (zlabel a) (title a) (legend a))).

Definition set_zlabel (s : string) : M unit :=
  modify (with_ax (fun a =>
    mkAxes (collections a) (lines a) (xlim a) (ylim a) (zlim a)
           (xlabel a) (ylabel a) s (title a) (legend a))).

Definition set_title (s : string) : M unit :=
  modify (with_ax (fun a =>
    mkAxes (collections a) (lines a) (xlim a) (ylim a) (zlim a)
           (xlabel a) (ylabel a) (zlabel a) s (legend a))).

Definition get_legend : M (option Legend) := gets (fun w => legend (ax w)).

(** [ax.legend(loc=, bbox_to_anchor=)]: a legend of the labelled artists the
    axes hold at that moment. *)
Definition ax_legend (l : string) (anchor : R * R) : M unit :=
  modify (with_ax (fun a =>
    mkAxes (collections a) (lines a) (xlim a) (ylim a) (zlim a)
           (xlabel a) (ylabel a) (zlabel a) (title a)
           (Some (mkLegend l anchor (map label (collections a ++ lines a)))))).

(** [text_box.set_val(s)]: the text the report box holds.  The widget also
    repaints itself when its text changes; that repaint is the widget's
    own and is not counted in [canvas_draws]. *)
Definition set_val (s : fstring) : M unit :=
  modify (fun w => mkWorld (ax w) s (textboxes w) (canvas_draws w) (stdout w)).

(** [fig.canvas.draw()], the call of line 109: [canvas_draws] counts the
    calls the program itself makes. *)
Definition canvas_draw : M unit :=
  modify (fun w => mkWorld (ax w) (text_box w) (textboxes w) (S (canvas_draws w)) (stdout w)).

(** [print(s)]. *)
Definition print (s : string) : M unit :=
  modify (fun w => mkWorld (ax w) (text_box w) (textboxes w) (canvas_draws w) (stdout w ++ [s])).

(** ** update_text_box (lines 66-88) *)

Definition nl : string := String (ascii_of_nat 10) EmptyString.

(** The six lines both branches share (lines 68-73 and 79-84). *)
Definition report_head (P1_mag cos_fi D_mag S1_mag Q1_mag fi : R) : fstring :=
  [ Lit " • Apparent Power (S1): "; Fix2 S1_mag; Lit (" kVA" ++ nl ++ nl);
    Lit " • Reactive Power (Q1): "; Fix2 Q1_mag; Lit (" kVAr" ++ nl ++ nl);
    Lit " • Active Power (P): "; Fix2 P1_mag; Lit (" kW" ++ nl ++ nl);
    Lit " • Cos(φ): "; Fix2 cos_fi; Lit (nl ++ nl);
    Lit " • Angle φ: "; Fix2 (np_degrees fi); Lit ("°" ++ nl ++ nl);
    Lit " • Harmonic Distortion (D): "; Fix2 D_mag; Lit (" kVAr" ++ nl ++ nl) ].

(** Lines 74-77: no placeholder, the zeros are text. *)
Definition report_tail_zero : fstring :=
  [ Lit (" • Apparent Power (S2): 0 kVA" ++ nl ++ nl);
    Lit (" • Reactive Power (Q2): 0 kVAr" ++ nl ++ nl);
    Lit (" • Power Factor: 0" ++ nl ++ nl);
    Lit " • Angle θ: 0°" ].

(** Lines 85-88. *)
Definition report_tail (S2_mag Q2_mag power_factor theta : R) : fstring :=
  [ Lit " • Apparent Power (S2): "; Fix2 S2_mag; Lit (" kVA" ++ nl ++ nl);
    Lit " • Reactive Power (Q2): "; Fix2 Q2_mag; Lit (" kVAr" ++ nl ++ nl);
    Lit " • Power Factor: "; Fix2 power_factor; Lit (nl ++ nl);
    Lit " • Angle θ: "; Fix2 (np_degrees theta); Lit "°" ].

Definition update_text_box
    (P1_mag cos_fi D_mag S1_mag Q1_mag S2_mag Q2_mag fi theta : R) : M unit :=
  (if Reqb D_mag 0 then
     set_val (report_head P1_mag cos_fi D_mag S1_mag Q1_mag fi ++ report_tail_zero)
   else
     power_factor <- lift (np_divide P1_mag S2_mag) ;;
     set_val (report_head P1_mag cos_fi D_mag S1_mag Q1_mag fi
                ++ report_tail S2_mag Q2_mag power_factor theta))%st.

(** ** update_plot (lines 6-64) *)

(** Lines 8-9: every artist of the snapshot [ax.collections + ax.lines]
    removes itself. *)
Definition clear_artists : M unit :=
  modify (with_ax (fun a =>
    fold_left (fun x line => Artist_remove line x) (collections a ++ lines a) a)).

Definition update_plot (P1_mag cos_fi D_mag : R) : M unit :=
  (clear_artists ;;
   (if out_of_range P1_mag cos_fi D_mag
    then raise (ValueError out_of_range_msg) else ret tt) ;;
   m <- lift (calculations P1_mag cos_fi D_mag) ;;
   let v := coordinates P1_mag (Q1_mag m) D_mag in
   let P := vec_P v in let Q1 := vec_Q1 v in let S1 := vec_S1 v in
   let D := vec_D v in let S2 := vec_S2 v in let Q2 := vec_Q2 v in
   quiver 0 0 0 (item0 P) (item1 P) (item2 P) "r" "P" ;;
   quiver (item0 P) (item1 P) (item2 P) (item0 Q1) (item1 Q1) (item2 Q1) "maroon" "Q1" ;;
   quiver 0 0 0 (item0 S1) (item1 S1) (item2 S1) "g" "S1" ;;
   (if Rltb 0 D_mag then
      quiver (item0 S1) (item1 S1) (item2 S1) (item0 D) (item1 D) (item2 D) "orange" "D" ;;
      quiver (item0 P) (item1 P) (item2 P) (item0 Q2) (item1 Q2) (item2 Q2) "purple" "Q2" ;;
      quiver 0 0 0 (item0 S2) (item1 S2) (item2 S2) "b" "S2"
    else ret tt) ;;
   let max_lim := py_max P1_mag D_mag * 2 in
   set_xlim (0, max_lim) ;;
   set_ylim (0, max_lim) ;;
   set_zlim (0, max_lim) ;;
   set_xlabel "Active Power (kW)" ;;
   set_ylabel "Reactive Power (kVAr)" ;;
   set_zlabel "Harmonic Distortion" ;;
   set_title "Power Triangle With Harmonics" ;;
   lg <- get_legend ;;
   (match lg with
    | None => ax_legend "center left" (11 / 10, 1 / 2)
    | Some _ => ret tt
    end) ;;
   update_text_box P1_mag cos_fi D_mag (S1_mag m) (Q1_mag m) (S2_mag m) (Q2_mag m)
                   (fi m) (theta m))%st.

(** ** Python's [float(text)] on ASCII text

    The grammar of the language reference: blanks around, a sign, then
    [inf], [infinity] or [nan] (any case), or digits with an optional point
    and an optional exponent; one underscore may stand between two digits.

    Limits of this reading.  The value is the decimal read exactly, where
    [float] rounds it to the nearest double (to 0.0 or to [inf] beyond the
    range of the doubles).  On [inf], [infinity] and [nan] Python's [float]
    returns a float that is no real: here the call ends with [NotReal].
    The text is taken as ASCII: digits and blanks beyond ASCII, which
    [float] also accepts, are not read, and in the message of the
    ValueError the characters beyond ASCII are shown as they are. *)

(** The blanks [float] strips from ASCII text: tab, newline, vertical tab,
    form feed, carriage return and space. *)
Definition is_space (c : ascii) : bool :=
  let n := nat_of_ascii c in
  ((9 <=? n)%nat && (n <=? 13)%nat) || (n =? 32)%nat.

Definition digit_of (c : ascii) : option Z :=
  let n := nat_of_ascii c in
  if ((48 <=? n)%nat && (n <=? 57)%nat) then Some (Z.of_nat (n - 48)) else None.

Definition is_digit (c : ascii) : bool :=
  match digit_of c with Some _ => true | None => false end.

Fixpoint lstrip (s : string) : string :=
  match s with
  | String c s' => if is_space c then lstrip s' else s
  | EmptyString => EmptyString
  end.

Fixpoint string_rev (acc s : string) : string :=
  match s with
  | String c s' => string_rev (String c acc) s'
  | EmptyString => acc
  end.

Definition strip (s : string) : string :=
  string_rev EmptyString (lstrip (string_rev EmptyString (lstrip s))).

(** ASCII lower case, for the case-blind [inf] and [nan]. *)
Definition lower (c : ascii) : ascii :=
  let n := nat_of_ascii c in
  if ((65 <=? n)%nat && (n <=? 90)%nat) then ascii_of_nat (n + 32) else c.

Fixpoint string_lower (s : string) : string :=
  match s with
  | String c s' => String (lower c) (string_lower s')
  | EmptyString => EmptyString
  end.

(** A run of digits from the front of [s], added to the value [acc] read so
    far ([n] digits): the new value, the new count and the rest. *)
Fixpoint digitpart (acc : Z) (n : nat) (s : string) : Z * nat * string :=
  match s with
  | String c s' =>
      match digit_of c with
      | Some d => digitpart (10 * acc + d) (S n) s'
      | None =>
          if (Ascii.eqb c "_" && negb (Nat.eqb n 0))%bool then
            match s' with
            | String c' _ => if is_digit c' then digitpart acc n s' else (acc, n, s)
            | EmptyString => (acc, n, s)
            end
          else (acc, n, s)
      end
  | EmptyString => (acc, n, s)
  end.

(** [+] or [-] at the front: whether the sign is minus, and the rest. *)
Definition sign (s : string) : bool * string :=
  match s with
  | String "-" s' => (true, s')
  | String "+" s' => (false, s')
  | _ => (false, s)
  end.

(** What [float] reads: a decimal [m * 10^e], inf or nan, or nothing. *)
Inductive literal : Type :=
| Decimal (m e : Z)
| NonFinite
| Malformed.

(** The exponent part, or the end of the text. *)
Definition exponent (s : string) : option Z :=
  match s with
  | EmptyString => Some 0%Z
  | String c s' =>
      if (Ascii.eqb c "e" || Ascii.eqb c "E")%bool then
        let '(neg, s1) := sign s' in
        match digitpart 0 0 s1 with
        | (_, O, _) => None
        | (x, _, EmptyString) => Some (if neg then (- x)%Z else x)
        | _ => None
        end
      else None
  end.

Definition floatnumber (s : string) : literal :=
  let '(i, ni, s1) := digitpart 0 0 s in
  let '(m, nf, s2) :=
    match s1 with
    | String "." s1' =>
        let '(m, n, s2) := digitpart i 0 s1' in (m, n, s2)
    | _ => (i, O, s1)
    end in
  match (ni + nf)%nat with
  | O => Malformed
  | _ =>
      match exponent s2 with
      | Some x => Decimal m (x - Z.of_nat nf)
      | None => Malformed
      end
  end.

Definition read_literal (text : string) : literal :=
  let '(neg, s) := sign (strip text) in
  let l := string_lower s in
  if (String.eqb l "inf" || String.eqb l "infinity" || String.eqb l "nan")%bool
  then NonFinite
  else
    match floatnumber s with
    | Decimal m e => Decimal (if neg then (- m)%Z else m) e
    | l' => l'
    end.

(** Python's [repr] of a text, as the message of [float] shows it: between
    single quotes, or between double quotes when the text has a single
    quote and no double quote; the quote in use and the backslash are
    escaped, tab, newline and carriage return are written \t, \n and \r,
    and the other control characters \xhh. *)
Definition backslash : ascii := ascii_of_nat 92.
Definition single_quote : ascii := ascii_of_nat 39.
Definition double_quote : ascii := ascii_of_nat 34.

Definition hex_digit (n : nat) : ascii :=
  ascii_of_nat (if (n <? 10)%nat then 48 + n else 87 + n).

Fixpoint has_char (c : ascii) (s : string) : bool :=
  match s with
  | String c' s' => Ascii.eqb c c' || has_char c s'
  | EmptyString => false
  end.

Fixpoint repr_body (quote : ascii) (s : string) : string :=
  match s with
  | EmptyString => EmptyString
  | String c s' =>
      let n := nat_of_ascii c in
      let rest := repr_body quote s' in
      if Ascii.eqb c quote || Ascii.eqb c backslash then
        String backslash (String c rest)
      else if (n =? 9)%nat then String backslash (String "t" rest)
      else if (n =? 10)%nat then String backslash (String "n" rest)
      else if (n =? 13)%nat then String backslash (String "r" rest)
      else if ((n <? 32)%nat || (n =? 127)%nat) then
        String backslash
          (String "x" (String (hex_digit (n / 16)) (String (hex_digit (n mod 16)) rest)))
      else String c rest
  end.

Definition py_repr (s : string) : string :=
  let quote :=
    if has_char single_quote s && negb (has_char double_quote s)
    then double_quote else single_quote in
  String quote (repr_body quote s ++ String quote EmptyString).

Definition decimal_value (m e : Z) : R :=
  if (0 <=? e)%Z then IZR (m * 10 ^ e) else IZR m / IZR (10 ^ (- e)).

Definition py_float (text : string) : outcome R :=
  match read_literal text with
  | Decimal m e => Return (decimal_value m e)
  | NonFinite => Raise (NotReal "float")
  | Malformed => Raise (ValueError ("could not convert string to float: " ++ py_repr text))
  end.

(** ** submit (lines 91-112) and the start of the program (lines 114-142) *)

(** [float(textboxes[i].text)]. *)
Definition textbox_float (i : nat) : M R :=
  fun w =>
    match nth_error (textboxes w) i with
    | Some t => (py_float t, w)
    | None => (Raise IndexError, w)
    end.

Definition submit (text : string) (input_type : string) : M unit :=
  try_except_ValueError
    (value <- lift (py_float text) ;;
     args <- (if String.eqb input_type "P1" then
                cos_fi <- textbox_float 1 ;;
                D_mag <- textbox_float 2 ;;
                ret (value, cos_fi, D_mag)
              else if String.eqb input_type "cos_fi" then
                P1_mag <- textbox_float 0 ;;
                D_mag <- textbox_float 2 ;;
                ret (P1_mag, value, D_mag)
              else if String.eqb input_type "D" then
                P1_mag <- textbox_float 0 ;;
                cos_fi <- textbox_float 1 ;;
                ret (P1_mag, cos_fi, value)
              else raise UnboundLocalError) ;;
     let '(P1_mag, cos_fi, D_mag) := args in
     update_plot P1_mag cos_fi D_mag ;;
     canvas_draw)%st
    (fun e => print ("Error: " ++ e)).

(** The callbacks of lines 123, 127 and 131, by the index of the box in
    [textboxes]. *)
Definition input_type_of (box : nat) : string :=
  match box with
  | O => "P1"
  | S O => "cos_fi"
  | _ => "D"
  end.

Fixpoint set_nth {A : Type} (i : nat) (a : A) (l : list A) : list A :=
  match l, i with
  | [], _ => []
  | _ :: l', O => a :: l'
  | b :: l', S i' => b :: set_nth i' a l'
  end.

(** The user submits [text] in input box [box]: the box holds the text, then
    its callback runs. *)
Definition on_submit (box : nat) (text : string) : M unit :=
  (modify (fun w => mkWorld (ax w) (text_box w) (set_nth box text (textboxes w))
                            (canvas_draws w) (stdout w)) ;;
   submit text (input_type_of box))%st.

(** Lines 114-139: an empty 3D axes, the three input boxes with their
    initial text, the empty report box. *)
Definition fresh_world : World :=
  mkWorld (mkAxes [] [] (0, 1) (0, 1) (0, 1) "" "" "" "" None)
          [] ["1"; "0.8"; "1"]%string 0 [].

(** Line 142: [update_plot(1, 0.8, 1, ax)]. *)
Definition startup : outcome unit * World := update_plot 1 (8 / 10) 1 fresh_world.

(** ** Helpers for the statements *)

(** The range the spec gives the three inputs. *)
Definition in_range (P1_mag cos_fi D_mag : R) : Prop :=
  P1_mag > 0 /\ 0 < cos_fi < 1 /\ D_mag >= 0.

(** The piece that follows the literal [key] in an f-string. *)
Fixpoint field_after (key : string) (r : fstring) : option piece :=
  match r with
  | [] => None
  | Lit s :: r' =>
      if String.eqb s key then hd_error r' else field_after key r'
  | Fix2 _ :: r' => field_after key r'
  end.


(** The axes once every artist is removed. *)
Definition cleared (a : Axes) : Axes :=
  mkAxes [] [] (xlim a) (ylim a) (zlim a) (xlabel a) (ylabel a) (zlabel a)
         (title a) (legend a).

(** The arrows of lines 38-40 and of lines 43-45. *)
Definition arrows_fundamental (v : Vectors) : list Artist :=
  let P := vec_P v in let Q1 := vec_Q1 v in let S1 := vec_S1 v in
  [ mkArtist 0 0 0 (item0 P) (item1 P) (item2 P) "r" "P" (12 / 100);
    mkArtist (item0 P) (item1 P) (item2 P) (item0 Q1) (item1 Q1) (item2 Q1)
             "maroon" "Q1" (12 / 100);
    mkArtist 0 0 0 (item0 S1) (item1 S1) (item2 S1) "g" "S1" (12 / 100) ].

Definition arrows_harmonic (v : Vectors) : list Artist :=
  let P := vec_P v in let S1 := vec_S1 v in
  let D := vec_D v in let S2 := vec_S2 v in let Q2 := vec_Q2 v in
  [ mkArtist (item0 S1) (item1 S1) (item2 S1) (item0 D) (item1 D) (item2 D)
             "orange" "D" (12 / 100);
    mkArtist (item0 P) (item1 P) (item2 P) (item0 Q2) (item1 Q2) (item2 Q2)
             "purple" "Q2" (12 / 100);
    mkArtist 0 0 0 (item0 S2) (item1 S2) (item2 S2) "b" "S2" (12 / 100) ].

(** The arrows a successful update leaves in the axes. *)
Definition drawn (P1_mag Q1_mag D_mag : R) : list Artist :=
  let v := coordinates P1_mag Q1_mag D_mag in
  arrows_fundamental v ++ (if Rltb 0 D_mag then arrows_harmonic v else []).

(** The report a successful update leaves in [text_box]. *)
Definition report (P1_mag cos_fi D_mag : R) (m : Magnitudes) : fstring :=
  report_head P1_mag cos_fi D_mag (S1_mag m) (Q1_mag m) (fi m) ++
  (if Reqb D_mag 0 then report_tail_zero
   else report_tail (S2_mag m) (Q2_mag m) (P1_mag / S2_mag m) (theta m)).

(** The world a successful update leaves, from the magnitudes [m] it
    computed and the world [w] it started in. *)
Definition updated (P1_mag cos_fi D_mag : R) (m : Magnitudes) (w : World) : World :=
  let arrows := drawn P1_mag (Q1_mag m) D_mag in
  let max_lim := py_max P1_mag D_mag * 2 in
  mkWorld
    (mkAxes arrows [] (0, max_lim) (0, max_lim) (0, max_lim)
            "Active Power (kW)" "Reactive Power (kVAr)" "Harmonic Distortion"
            "Power Triangle With Harmonics"
            (match legend (ax w) with
             | Some l => Some l
             | None => Some (mkLegend "center left" (11 / 10, 1 / 2) (map label arrows))
             end))
    (report P1_mag cos_fi D_mag m) (textboxes w) (canvas_draws w) (stdout w).




(** The scalar product of two arrays. *)
Definition dot (u v : ndarray) : R :=
  item0 u * item0 v + item1 u * item1 v + item2 u * item2 v.

(** The worlds met when the user submits the texts [events] one after the
    other, each in the box of its index; a call that raises leaves the
    world it raised in. *)
Fixpoint submissions (events : list (nat * string)) (w : World) : World :=
  match events with
  | [] => w
  | (box, text) :: events' => submissions events' (snd (on_submit box text w))
  end.

(** The legend the start of the program makes (line 61, with the six arrows
    of line 142 in the axes). *)
Definition start_legend : Legend :=
  mkLegend "center left" (11 / 10, 1 / 2) ["P"; "Q1"; "S1"; "D"; "Q2"; "S2"]%string.

(** The world shows the triple (P, cos(phi), D): its report and its limits
    are those of the triple, and its arrows are those of the triple or
    none at all. *)
Definition shows (P1_mag cos_fi D_mag : R) (m : Magnitudes) (w : World) : Prop :=
  text_box w = report P1_mag cos_fi D_mag m /\
  xlim (ax w) = (0, py_max P1_mag D_mag * 2) /\
  ylim (ax w) = (0, py_max P1_mag D_mag * 2) /\
  zlim (ax w) = (0, py_max P1_mag D_mag * 2) /\
  (collections (ax w) = drawn P1_mag (Q1_mag m) D_mag \/ collections (ax w) = []).

(** What holds of the world between two submissions. *)
Definition consistent (w : World) : Prop :=
  List.length (textboxes w) = 3%nat /\
  lines (ax w) = [] /\
  legend (ax w) = Some start_legend /\
  xlabel (ax w) = "Active Power (kW)"%string /\
  ylabel (ax w) = "Reactive Power (kVAr)"%string /\
  zlabel (ax w) = "Harmonic Distortion"%string /\
  title (ax w) = "Power Triangle With Harmonics"%string /\
  exists P1_mag cos_fi D_mag m,
    in_range P1_mag cos_fi D_mag /\
    calculations P1_mag cos_fi D_mag = Return m /\
    shows P1_mag cos_fi D_mag m w.

(** The three ways a call of [submit] can leave the world. *)
Inductive submit_leaves (w : World) : World -> Prop :=
| leaves_plot (out : list string) :
    submit_leaves w (mkWorld (ax w) (text_box w) (textboxes w) (canvas_draws w) out)
| leaves_cleared (out : list string) :
    submit_leaves w
      (mkWorld (cleared (ax w)) (text_box w) (textboxes w) (canvas_draws w) out)
| leaves_updated (P1_mag cos_fi D_mag : R) (m : Magnitudes) :
    in_range P1_mag cos_fi D_mag ->
    calculations P1_mag cos_fi D_mag = Return m ->
    submit_leaves w
      (let w' := updated P1_mag cos_fi D_mag m w in
       mkWorld (ax w') (text_box w') (textboxes w) (S (canvas_draws w)) (stdout w)).

(** Text of ASCII characters only. *)
Fixpoint is_ascii_text (s : string) : bool :=
  match s with
  | String c s' => (nat_of_ascii c <? 128)%nat && is_ascii_text s'
  | EmptyString => true
  end.

(** A decimal [m * 10^e] of at most 15 digits and an exponent within 100 of
    zero: its double is a normal number that reads back as the same
    decimal, and its square neither overflows nor underflows. *)
Definition moderate (m e : Z) : bool :=
  (Z.abs m <? 10 ^ 15)%Z && (Z.abs e <=? 100)%Z.

(** The texts on which [py_float] and Python's [float] go the same way:
    ASCII text that is either no number at all or a moderate decimal. *)
Definition plain_text (text : string) : bool :=
  is_ascii_text text &&
  match read_literal text with
  | Decimal m e => moderate m e
  | NonFinite => false
  | Malformed => true
  end.

(** ** The calculation on doubles

    Lines 12-27 and the quotient of line 87 on binary64 numbers, as Python
    and numpy evaluate them.  [P1_mag] and [D_mag] are Python floats (the
    results of [float(text)]); [Q1_mag], [S1_mag], [S2_mag] and [Q2_mag] are
    numpy float64.  [np.arccos] and [np.tan] are functions of the platform's
    mathematical library and are not evaluated here: the value of
    [np.tan(fi)] is the argument [tan_fi]. *)

Set Warnings "-inexact-float".

Module Float64.
Import PrimFloat.
Local Open Scope float_scope.

Definition isfinite (x : float) : bool := negb (is_nan x) && negb (is_infinity x).

(** Python's [x ** 2] on a float: the rounded square; OverflowError when
    the square of a finite number is not finite; a square that underflows
    is 0.0, silently. *)
Definition py_pow2 (x : float) : outcome float :=
  let y := x * x in
  if isfinite x && negb (isfinite y) then Raise OverflowError else Return y.

(** numpy's [x ** 2] on a float64: the rounded square, [inf] on overflow
    (a RuntimeWarning, no exception). *)
Definition np_pow2 (x : float) : float := x * x.

(** [np.sqrt]: the rounded square root, [nan] on a negative argument. *)
Definition np_sqrt (x : float) : float := sqrt x.

(** [x / y] with a numpy divisor: [inf] or [nan] when the divisor is zero
    (a RuntimeWarning, no exception). *)
Definition np_divide (x y : float) : float := x / y.

(** The arguments on which [np.arccos] has a value; on the others it
    returns [nan]. *)
Definition arccos_defined (x : float) : bool := (-1 <=? x) && (x <=? 1).

(** The test of line 12. *)
Definition out_of_range (P1_mag cos_fi D_mag : float) : bool :=
  (P1_mag <=? 0) || (D_mag <? 0) || negb ((0 <? cos_fi) && (cos_fi <? 1)).

(** The magnitudes after line 27, and the quotient [P1_mag / S2_mag] that
    line 27 passes to [np.arccos] and line 87 reports as the power factor
    (none when D = 0, where neither line is run). *)
Record Magnitudes : Type := mkMagnitudes {
  Q1_mag : float;
  S1_mag : float;
  S2_mag : float;
  Q2_mag : float;
  power_factor : option float
}.

(** Lines 17-27. *)
Definition calculations (P1_mag tan_fi D_mag : float) : outcome Magnitudes :=
  (let Q1_mag := P1_mag * tan_fi in
   p2 <- py_pow2 P1_mag ;;
   let S1_mag := np_sqrt (p2 + np_pow2 Q1_mag) in
   if D_mag =? 0 then
     Return (mkMagnitudes Q1_mag S1_mag 0 0 None)
   else
     d2 <- py_pow2 D_mag ;;
     let S2_mag := np_sqrt (np_pow2 S1_mag + d2) in
     d2' <- py_pow2 D_mag ;;
     let Q2_mag := np_sqrt (np_pow2 Q1_mag + d2') in
     Return (mkMagnitudes Q1_mag S1_mag S2_mag Q2_mag
                          (Some (np_divide P1_mag S2_mag))))%py.

(** The doubles from [n] places below [x] to [n] places above it. *)
Fixpoint below (n : nat) (x : float) : list float :=
  match n with
  | O => []
  | S n' => below n' (next_down x) ++ [next_down x]
  end.

Fixpoint above (n : nat) (x : float) : list float :=
  match n with
  | O => []
  | S n' => next_up x :: above n' (next_up x)
  end.

Definition neighbours (n : nat) (x : float) : list float :=
  below n x ++ x :: above n x.

(** [np.tan(np.arccos(0.8))].  The real tangent of the arccosine of 0.8 is
    3/4; the library's result is a double within a few units in the last
    place of 0.75 (0.7499999999999998 with glibc): one of these nine. *)
Definition tan_fi_08 : list float := neighbours 4 0.75.

(** The inputs of the theorems: the doubles of the texts "1e-200", "1e154"
    and "1e200". *)
Definition tiny : float := 1e-200.
Definition large : float := 1e154.
Definition huge : float := 1e200.

End Float64.

(** * Properties *)

Lemma Return_inj {A : Type} (a b : A) : Return a = Return b -> a = b.
Proof. intros H; injection H; trivial. Qed.

(** ** Comparisons *)

Lemma Rleb_spec (x y : R) : reflect (x <= y) (Rleb x y).
Proof. unfold Rleb; destruct (Rle_dec x y); constructor; assumption. Qed.

Lemma Rltb_spec (x y : R) : reflect (x < y) (Rltb x y).
Proof. unfold Rltb; destruct (Rlt_dec x y); constructor; assumption. Qed.

Lemma Reqb_spec (x y : R) : reflect (x = y) (Reqb x y).
Proof. unfold Reqb; destruct (Req_dec_T x y); constructor; assumption. Qed.

(** Decides every comparison in the goal and closes the absurd branches. *)
Ltac cmp :=
  repeat match goal with
  | |- context [Rleb ?x ?y] => destruct (Rleb_spec x y)
  | |- context [Rltb ?x ?y] => destruct (Rltb_spec x y)
  | |- context [Reqb ?x ?y] => destruct (Reqb_spec x y)
  end; cbn [andb orb negb]; try lra; try reflexivity; try discriminate.

Lemma out_of_range_true_iff (P1_mag cos_fi D_mag : R) :
  out_of_range P1_mag cos_fi D_mag = true <->
  P1_mag <= 0 \/ D_mag < 0 \/ ~ (0 < cos_fi < 1).
Proof.
  unfold out_of_range.
  destruct (Rleb_spec P1_mag 0), (Rltb_spec D_mag 0),
           (Rltb_spec 0 cos_fi), (Rltb_spec cos_fi 1); cbn;
    split; intros H; try reflexivity; try discriminate; try tauto;
    try (right; right; lra).
Qed.

Lemma out_of_range_false_iff (P1_mag cos_fi D_mag : R) :
  out_of_range P1_mag cos_fi D_mag = false <-> in_range P1_mag cos_fi D_mag.
Proof.
  unfold out_of_range, in_range.
  destruct (Rleb_spec P1_mag 0), (Rltb_spec D_mag 0),
           (Rltb_spec 0 cos_fi), (Rltb_spec cos_fi 1); cbn;
    split; intros H; try reflexivity; try discriminate; try lra.
Qed.

Lemma py_max_Rmax (a b : R) : py_max a b = Rmax a b.
Proof.
  unfold py_max, Rmax.
  destruct (Rltb_spec a b), (Rle_dec a b); try reflexivity; lra.
Qed.

(** ** The numpy operations inside their domain *)

Lemma np_arccos_defined (x : R) :
  -1 <= x <= 1 -> np_arccos x = Return (acos x).
Proof. intros [H1 H2]; unfold np_arccos; cmp. Qed.

Lemma np_tan_acos (c : R) :
  0 < c < 1 -> np_tan (acos c) = Return (tan (acos c)).
Proof.
  intros Hc; unfold np_tan.
  rewrite cos_acos by lra.
  cmp.
Qed.

Lemma np_sqrt_defined (x : R) : 0 <= x -> np_sqrt x = Return (sqrt x).
Proof. intros H; unfold np_sqrt; cmp. Qed.

Lemma np_divide_defined (x y : R) : y <> 0 -> np_divide x y = Return (x / y).
Proof. intros H; unfold np_divide; cmp; contradiction. Qed.

Lemma np_divide_zero (x : R) : np_divide x 0 = Raise (NotReal "divide").
Proof. unfold np_divide; cmp; contradiction. Qed.

(** ** Square roots of sums of squares *)

Lemma sum_sq_nonneg (a b : R) : 0 <= a ^ 2 + b ^ 2.
Proof. nra. Qed.

Lemma hyp_ge_leg (a b : R) : 0 <= a -> a <= sqrt (a ^ 2 + b ^ 2).
Proof.
  intros Ha.
  rewrite <- (sqrt_pow2 a Ha) at 1.
  apply sqrt_le_1_alt; nra.
Qed.

Lemma hyp_gt_leg (a b : R) : 0 <= a -> b <> 0 -> a < sqrt (a ^ 2 + b ^ 2).
Proof.
  intros Ha Hb.
  rewrite <- (sqrt_pow2 a Ha) at 1.
  apply sqrt_lt_1_alt; nra.
Qed.

Lemma hyp_ge_leg_r (a b : R) : 0 <= b -> b <= sqrt (a ^ 2 + b ^ 2).
Proof.
  intros Hb. rewrite Rplus_comm. apply hyp_ge_leg; assumption.
Qed.


Lemma ratio_bounds (a b : R) : 0 < a -> a < b -> 0 < a / b < 1.
Proof.
  intros Ha Hab.
  assert (Hb : 0 < b) by lra.
  assert (Hi : 0 < / b) by (apply Rinv_0_lt_compat; exact Hb).
  split.
  - unfold Rdiv; nra.
  - replace 1 with (b / b) by (field; lra).
    unfold Rdiv; nra.
Qed.

(** ** The calculation on inputs in range *)

Section Calculations.

Variables P1_mag cos_fi D_mag : R.
Hypothesis HP : P1_mag > 0.
Hypothesis Hc : 0 < cos_fi < 1.

Local Abbreviation Q1 := (P1_mag * tan (acos cos_fi)).
Local Abbreviation S1 := (sqrt (P1_mag ^ 2 + Q1 ^ 2)).
Local Abbreviation S2 := (sqrt (S1 ^ 2 + D_mag ^ 2)).
Local Abbreviation Q2 := (sqrt (Q1 ^ 2 + D_mag ^ 2)).

Lemma S1_ge_P : P1_mag <= S1.
Proof. apply hyp_ge_leg; lra. Qed.

Lemma S2_gt_S1 : D_mag <> 0 -> S1 < S2.
Proof.
  intros HD. apply hyp_gt_leg; [|exact HD].
  pose proof S1_ge_P; lra.
Qed.

Lemma S2_gt_P : D_mag <> 0 -> P1_mag < S2.
Proof.
  intros HD. pose proof S1_ge_P. pose proof (S2_gt_S1 HD). lra.
Qed.

Lemma power_factor_bounds : D_mag <> 0 -> 0 < P1_mag / S2 < 1.
Proof.
  intros HD. apply ratio_bounds; [lra | apply S2_gt_P; exact HD].
Qed.

Lemma calculations_front :
  calculations P1_mag cos_fi D_mag =
  (if Reqb D_mag 0 then
     Return (mkMagnitudes (acos cos_fi) Q1 S1 0 0 0)
   else
     S2_mag <- np_sqrt (S1 ^ 2 + D_mag ^ 2) ;;
     Q2_mag <- np_sqrt (Q1 ^ 2 + D_mag ^ 2) ;;
     r <- np_divide P1_mag S2_mag ;;
     theta <- np_arccos r ;;
     Return (mkMagnitudes (acos cos_fi) Q1 S1 S2_mag Q2_mag theta))%py.
Proof.
  unfold calculations.
  rewrite np_arccos_defined by lra. cbn [obind].
  rewrite (np_tan_acos _ Hc). cbn [obind].
  rewrite np_sqrt_defined by apply sum_sq_nonneg.
  reflexivity.
Qed.

Lemma calculations_zero :
  D_mag = 0 ->
  calculations P1_mag cos_fi D_mag = Return (mkMagnitudes (acos cos_fi) Q1 S1 0 0 0).
Proof.
  intros HD. rewrite calculations_front.
  destruct (Reqb_spec D_mag 0); [reflexivity | contradiction].
Qed.

Lemma calculations_nonzero :
  D_mag <> 0 ->
  calculations P1_mag cos_fi D_mag =
  Return (mkMagnitudes (acos cos_fi) Q1 S1 S2 Q2 (acos (P1_mag / S2))).
Proof.
  intros HD. rewrite calculations_front.
  destruct (Reqb_spec D_mag 0); [contradiction|].
  rewrite !np_sqrt_defined by apply sum_sq_nonneg. cbn [obind].
  rewrite np_divide_defined by (pose proof (S2_gt_P HD); lra).
  cbn [obind].
  rewrite np_arccos_defined by (pose proof (power_factor_bounds HD); lra).
  reflexivity.
Qed.

End Calculations.

(** ** Clearing the axes *)

Lemma remove_all_of_snapshot (l cs : list Artist) :
  incl cs l ->
  fold_left (fun c line => remove Artist_eq_dec line c) l cs = [].
Proof.
  revert cs; induction l as [|x l IH]; intros cs Hincl; cbn [fold_left].
  - destruct cs as [|c cs]; [reflexivity|].
    destruct (Hincl c (or_introl eq_refl)).
  - apply IH. intros y Hy.
    apply in_remove in Hy as [Hy Hne].
    destruct (Hincl y Hy) as [Heq | Hin]; [congruence | exact Hin].
Qed.

Lemma fold_Artist_remove (l : list Artist) (a : Axes) :
  fold_left (fun x line => Artist_remove line x) l a =
  mkAxes (fold_left (fun c line => remove Artist_eq_dec line c) l (collections a))
         (fold_left (fun c line => remove Artist_eq_dec line c) l (lines a))
         (xlim a) (ylim a) (zlim a) (xlabel a) (ylabel a) (zlabel a)
         (title a) (legend a).
Proof.
  revert a; induction l as [|x l IH]; intros a; cbn [fold_left].
  - destruct a; reflexivity.
  - rewrite IH. reflexivity.
Qed.

Lemma clear_artists_spec (w : World) :
  clear_artists w = (Return tt, with_ax cleared w).
Proof.
  unfold clear_artists, modify, with_ax. f_equal. f_equal.
  rewrite fold_Artist_remove.
  rewrite !remove_all_of_snapshot; [reflexivity | | ].
  - apply incl_appr, incl_refl.
  - apply incl_appl, incl_refl.
Qed.

(** ** update_plot, case by case *)

Lemma update_plot_out_of_range (P1_mag cos_fi D_mag : R) (w : World) :
  out_of_range P1_mag cos_fi D_mag = true ->
  update_plot P1_mag cos_fi D_mag w =
  (Raise (ValueError out_of_range_msg), with_ax cleared w).
Proof.
  intros H. unfold update_plot, bind.
  rewrite clear_artists_spec, H. reflexivity.
Qed.

Lemma update_text_box_spec (P1_mag cos_fi D_mag : R) (m : Magnitudes) (w : World) :
  (D_mag <> 0 -> S2_mag m <> 0) ->
  update_text_box P1_mag cos_fi D_mag (S1_mag m) (Q1_mag m) (S2_mag m) (Q2_mag m)
                  (fi m) (theta m) w =
  (Return tt,
   mkWorld (ax w) (report P1_mag cos_fi D_mag m) (textboxes w) (canvas_draws w)
           (stdout w)).
Proof.
  intros HS. unfold update_text_box, report.
  destruct (Reqb_spec D_mag 0) as [HD | HD]; [reflexivity|].
  unfold bind, lift. rewrite np_divide_defined by auto. reflexivity.
Qed.

Lemma update_plot_in_range (P1_mag cos_fi D_mag : R) (m : Magnitudes) (w : World) :
  out_of_range P1_mag cos_fi D_mag = false ->
  calculations P1_mag cos_fi D_mag = Return m ->
  (D_mag <> 0 -> S2_mag m <> 0) ->
  update_plot P1_mag cos_fi D_mag w = (Return tt, updated P1_mag cos_fi D_mag m w).
Proof.
  intros Hr Hm HS. unfold update_plot.
  unfold bind at 1. rewrite clear_artists_spec.
  unfold bind at 1. rewrite Hr. unfold ret at 1.
  unfold bind at 1, lift at 1. rewrite Hm.
  cbv zeta.
  unfold updated, drawn, arrows_fundamental, arrows_harmonic.
  destruct w as [a t tb n out]; destruct a as [cs ls xl yl zl xa ya za ti lg].
  destruct (Rltb_spec 0 D_mag) as [HD | HD]; destruct lg as [lg|];
    cbv [bind quiver set_xlim set_ylim set_zlim set_xlabel set_ylabel
         set_zlabel set_title get_legend ax_legend gets modify with_ax ret cleared
         ax collections lines xlim ylim zlim xlabel ylabel zlabel title legend
         text_box textboxes canvas_draws stdout app map label];
    rewrite update_text_box_spec by exact HS; reflexivity.
Qed.

Lemma tan_acos_pos (c : R) : 0 < c < 1 -> 0 < tan (acos c).
Proof.
  intros Hc. rewrite tan_acos by lra.
  apply Rdiv_lt_0_compat; [|lra].
  apply sqrt_lt_R0. unfold Rsqr. nra.
Qed.

(** Every input in range has its magnitudes: the calculation returns. *)
Lemma calculations_returns (P1_mag cos_fi D_mag : R) :
  P1_mag > 0 -> 0 < cos_fi < 1 ->
  exists m,
    calculations P1_mag cos_fi D_mag = Return m /\
    fi m = acos cos_fi /\
    Q1_mag m = P1_mag * tan (acos cos_fi) /\
    S1_mag m = sqrt (P1_mag ^ 2 + Q1_mag m ^ 2) /\
    (D_mag = 0 -> S2_mag m = 0 /\ Q2_mag m = 0 /\ theta m = 0) /\
    (D_mag <> 0 ->
       S2_mag m = sqrt (S1_mag m ^ 2 + D_mag ^ 2) /\
       Q2_mag m = sqrt (Q1_mag m ^ 2 + D_mag ^ 2) /\
       theta m = acos (P1_mag / S2_mag m)).
Proof.
  intros HP Hc.
  destruct (Req_dec_T D_mag 0) as [HD | HD]; eexists; split.
  - apply calculations_zero; assumption.
  - cbn [fi Q1_mag S1_mag S2_mag Q2_mag theta].
    repeat split; try reflexivity; intros; contradiction.
  - apply calculations_nonzero; assumption.
  - cbn [fi Q1_mag S1_mag S2_mag Q2_mag theta].
    repeat split; try reflexivity; intros; contradiction.
Qed.

(** The divisor of line 27 and line 87 is not zero when it is used. *)
Lemma S2_mag_nonzero (P1_mag cos_fi D_mag : R) (m : Magnitudes) :
  P1_mag > 0 -> 0 < cos_fi < 1 ->
  calculations P1_mag cos_fi D_mag = Return m ->
  D_mag <> 0 -> S2_mag m <> 0.
Proof.
  intros HP Hc Hm HD.
  rewrite (calculations_nonzero _ _ _ HP Hc HD) in Hm.
  apply Return_inj in Hm. subst m. cbn [S2_mag].
  pose proof (S2_gt_P _ cos_fi _ HP HD). lra.
Qed.

Lemma update_plot_returns (P1_mag cos_fi D_mag : R) (w : World) :
  in_range P1_mag cos_fi D_mag ->
  exists m,
    calculations P1_mag cos_fi D_mag = Return m /\
    update_plot P1_mag cos_fi D_mag w = (Return tt, updated P1_mag cos_fi D_mag m w).
Proof.
  intros Hr. pose proof Hr as (HP & Hc & HD).
  destruct (calculations_returns _ _ D_mag HP Hc) as (m & Hm & _).
  exists m; split; [exact Hm|].
  apply update_plot_in_range.
  - apply out_of_range_false_iff; exact Hr.
  - exact Hm.
  - apply (S2_mag_nonzero _ _ _ _ HP Hc Hm).
Qed.

(** ** Validation *)

(** In exact arithmetic [update_plot] raises a ValueError exactly when
    P <= 0, or D < 0, or cos(phi) is not strictly between 0 and 1, and the
    error is then the "Values out of range" one; on every other triple the
    calculation yields its magnitudes and [update_plot] returns.  On
    doubles the squares of lines 18, 25 and 26 can overflow before that
    ([Float64.py_pow2]). *)
Theorem value_error_iff_out_of_range (P1_mag cos_fi D_mag : R) (w : World) :
  ((exists msg, fst (update_plot P1_mag cos_fi D_mag w) = Raise (ValueError msg)) <->
   (P1_mag <= 0 \/ D_mag < 0 \/ ~ (0 < cos_fi < 1))) /\
  ((P1_mag <= 0 \/ D_mag < 0 \/ ~ (0 < cos_fi < 1)) ->
   fst (update_plot P1_mag cos_fi D_mag w) = Raise (ValueError out_of_range_msg)) /\
  ((P1_mag > 0 /\ 0 < cos_fi < 1 /\ D_mag >= 0) ->
   exists m,
     calculations P1_mag cos_fi D_mag = Return m /\
     fst (update_plot P1_mag cos_fi D_mag w) = Return tt).
Proof.
  assert (Hbad : (P1_mag <= 0 \/ D_mag < 0 \/ ~ (0 < cos_fi < 1)) ->
                 fst (update_plot P1_mag cos_fi D_mag w)
                 = Raise (ValueError out_of_range_msg)).
  { intros H. apply out_of_range_true_iff in H.
    rewrite (update_plot_out_of_range _ _ _ w H). reflexivity. }
  assert (Hgood : in_range P1_mag cos_fi D_mag ->
                  exists m, calculations P1_mag cos_fi D_mag = Return m /\
                            fst (update_plot P1_mag cos_fi D_mag w) = Return tt).
  { intros H. destruct (update_plot_returns _ _ _ w H) as (m & Hm & Hu).
    exists m. rewrite Hu. split; [exact Hm | reflexivity]. }
  split; [split|split].
  - intros [msg Hraise].
    apply out_of_range_true_iff.
    destruct (out_of_range P1_mag cos_fi D_mag) eqn:E; [reflexivity|].
    apply out_of_range_false_iff in E.
    destruct (Hgood E) as (m & _ & Hret). congruence.
  - intros H. exists out_of_range_msg. apply Hbad; exact H.
  - exact Hbad.
  - exact Hgood.
Qed.

(** ** The fundamental triangle *)

(** In exact arithmetic, for every P > 0 and 0 < cos(phi) < 1 (whatever D),
    the calculation yields Q1 = P * tan(arccos(cos(phi))) and
    S1 = sqrt(P^2 + Q1^2), and S1 >= P. *)
Theorem fundamental_triangle (P1_mag cos_fi D_mag : R) :
  P1_mag > 0 -> 0 < cos_fi < 1 ->
  exists m,
    calculations P1_mag cos_fi D_mag = Return m /\
    Q1_mag m = P1_mag * tan (acos cos_fi) /\
    S1_mag m = sqrt (P1_mag ^ 2 + Q1_mag m ^ 2) /\
    S1_mag m >= P1_mag.
Proof.
  intros HP Hc.
  destruct (calculations_returns _ _ D_mag HP Hc) as (m & Hm & _ & HQ & HS & _).
  exists m. repeat split; try assumption.
  rewrite HS. apply Rle_ge, hyp_ge_leg. lra.
Qed.

(** ** With harmonic distortion *)



(** In exact arithmetic, for every input in range with D > 0, the
    magnitudes with distortion are not below the fundamental ones,
    S2 >= S1 and Q2 >= Q1, and a larger distortion D' >= D gives S2 and Q2
    that are not smaller. *)
Theorem distortion_does_not_shrink (P1_mag cos_fi D_mag : R) :
  in_range P1_mag cos_fi D_mag -> D_mag > 0 ->
  exists m,
    calculations P1_mag cos_fi D_mag = Return m /\
    S2_mag m >= S1_mag m /\
    Q2_mag m >= Q1_mag m /\
    forall D', D_mag <= D' ->
      exists m',
        calculations P1_mag cos_fi D' = Return m' /\
        S2_mag m <= S2_mag m' /\ Q2_mag m <= Q2_mag m'.
Proof.
  intros (HP & Hc & _) HD.
  destruct (calculations_returns _ _ D_mag HP Hc)
    as (m & Hm & _ & HQ1 & HS1 & _ & Hnz).
  destruct Hnz as (HS2 & HQ2 & _); [lra|].
  exists m. split; [exact Hm|]. split; [|split].
  - rewrite HS2. apply Rle_ge, hyp_ge_leg.
    rewrite HS1. apply sqrt_pos.
  - rewrite HQ2. apply Rle_ge, hyp_ge_leg.
    rewrite HQ1. pose proof (tan_acos_pos _ Hc). nra.
  - intros D' HD'.
    destruct (calculations_returns _ _ D' HP Hc)
      as (m' & Hm' & _ & HQ1' & HS1' & _ & Hnz').
    destruct Hnz' as (HS2' & HQ2' & _); [lra|].
    exists m'. split; [exact Hm'|].
    assert (ES : S1_mag m' = S1_mag m) by (rewrite HS1, HS1', HQ1, HQ1'; reflexivity).
    assert (EQ : Q1_mag m' = Q1_mag m) by (rewrite HQ1, HQ1'; reflexivity).
    rewrite HS2, HS2', HQ2, HQ2', ES, EQ.
    split; apply sqrt_le_1_alt; nra.
Qed.

(** The report of an update with distortion holds the power factor P / S2
    after its label. *)
Lemma report_power_factor (P1_mag cos_fi D_mag : R) (m : Magnitudes) :
  D_mag <> 0 ->
  field_after " • Power Factor: " (report P1_mag cos_fi D_mag m)
  = Some (Fix2 (P1_mag / S2_mag m)).
Proof.
  intros HD. unfold report.
  destruct (Reqb_spec D_mag 0); [contradiction|].
  reflexivity.
Qed.

(** In exact arithmetic, for every input in range with D > 0, S2 > 0 and
    the power factor the report shows, P / S2, lies in (0, 1]. *)
Theorem reported_power_factor_in_unit_interval
    (P1_mag cos_fi D_mag : R) (w : World) :
  in_range P1_mag cos_fi D_mag -> D_mag > 0 ->
  exists m w',
    calculations P1_mag cos_fi D_mag = Return m /\
    update_plot P1_mag cos_fi D_mag w = (Return tt, w') /\
    S2_mag m > 0 /\
    field_after " • Power Factor: " (text_box w') = Some (Fix2 (P1_mag / S2_mag m)) /\
    0 < P1_mag / S2_mag m <= 1.
Proof.
  intros Hr HD.
  destruct (update_plot_returns _ _ _ w Hr) as (m & Hm & Hu).
  destruct Hr as (HP & Hc & _).
  assert (HD0 : D_mag <> 0) by lra.
  pose proof Hm as Hm'.
  rewrite (calculations_nonzero _ _ _ HP Hc HD0) in Hm'.
  apply Return_inj in Hm'.
  pose proof (S2_gt_P _ cos_fi _ HP HD0) as HS.
  pose proof (power_factor_bounds _ cos_fi _ HP HD0) as Hpf.
  exists m, (updated P1_mag cos_fi D_mag m w).
  split; [exact Hm|]. split; [exact Hu|].
  subst m. cbn [S2_mag text_box updated].
  split; [lra|]. split; [|lra].
  apply report_power_factor; exact HD0.
Qed.

(** ** Without harmonic distortion *)





(** ** Axis limits *)

(** C9.  Every update on an input in range returns and leaves the limits of
    the x, y and z axes at the same range, from 0 to 2 * max(P, D). *)
Theorem axis_limits (P1_mag cos_fi D_mag : R) (w : World) :
  in_range P1_mag cos_fi D_mag ->
  exists w',
    update_plot P1_mag cos_fi D_mag w = (Return tt, w') /\
    xlim (ax w') = (0, 2 * Rmax P1_mag D_mag) /\
    ylim (ax w') = (0, 2 * Rmax P1_mag D_mag) /\
    zlim (ax w') = (0, 2 * Rmax P1_mag D_mag).
Proof.
  intros Hr.
  destruct (update_plot_returns _ _ _ w Hr) as (m & _ & Hu).
  exists (updated P1_mag cos_fi D_mag m w).
  split; [exact Hu|].
  unfold updated. cbv zeta. cbn [ax xlim ylim zlim].
  rewrite py_max_Rmax, Rmult_comm.
  repeat split; reflexivity.
Qed.

Lemma axis_limits_witness :
  in_range 1 (4 / 5) 3 /\
  exists w',
    update_plot 1 (4 / 5) 3 fresh_world = (Return tt, w') /\
    xlim (ax w') = (0, 2 * Rmax 1 3) /\
    ylim (ax w') = (0, 2 * Rmax 1 3) /\
    zlim (ax w') = (0, 2 * Rmax 1 3).
Proof.
  assert (Hr : in_range 1 (4 / 5) 3) by (unfold in_range; lra).
  split; [exact Hr|].
  apply (axis_limits 1 (4 / 5) 3 fresh_world Hr).
Defined.

(** ** The division and the arccos of line 27 and line 87 *)

(** In exact arithmetic the update returns on every input in range: no
    division by zero and no arccos outside [-1, 1] occurs.  With D > 0 the
    divisor obeys S2 >= D > 0 and P < S2, so P / S2 is strictly between 0
    and 1, and both the division and the arccos have a value.  With D = 0
    the divisor S2 is 0 and a division by it would have no value, yet the
    update returns: the division and the arccos are not evaluated. *)
Theorem power_factor_well_defined (P1_mag cos_fi D_mag : R) (w : World) :
  in_range P1_mag cos_fi D_mag ->
  exists m,
    calculations P1_mag cos_fi D_mag = Return m /\
    fst (update_plot P1_mag cos_fi D_mag w) = Return tt /\
    (D_mag > 0 ->
       S2_mag m >= D_mag /\ S2_mag m > 0 /\ P1_mag < S2_mag m /\
       0 < P1_mag / S2_mag m < 1 /\
       np_divide P1_mag (S2_mag m) = Return (P1_mag / S2_mag m) /\
       np_arccos (P1_mag / S2_mag m) = Return (theta m)) /\
    (D_mag = 0 ->
       S2_mag m = 0 /\ np_divide P1_mag (S2_mag m) = Raise (NotReal "divide")).
Proof.
  intros Hr.
  destruct (update_plot_returns _ _ _ w Hr) as (m & Hm & Hu).
  destruct Hr as (HP & Hc & HD).
  exists m. split; [exact Hm|]. split; [rewrite Hu; reflexivity|]. split.
  - intros Hpos. assert (HD0 : D_mag <> 0) by lra.
    rewrite (calculations_nonzero _ _ _ HP Hc HD0) in Hm.
    apply Return_inj in Hm. subst m. cbn [S2_mag theta].
    pose proof (S2_gt_P _ cos_fi _ HP HD0) as HS.
    pose proof (power_factor_bounds _ cos_fi _ HP HD0) as Hpf.
    split; [apply Rle_ge, hyp_ge_leg_r; lra|].
    split; [lra|]. split; [exact HS|]. split; [exact Hpf|]. split.
    + apply np_divide_defined; lra.
    + apply np_arccos_defined; lra.
  - intros HD0.
    rewrite (calculations_zero P1_mag _ _ Hc HD0) in Hm.
    apply Return_inj in Hm. subst m. cbn [S2_mag].
    split; [reflexivity | apply np_divide_zero].
Qed.

(** ** Submissions *)

Lemma py_float_decimal (text : string) (m e : Z) :
  read_literal text = Decimal m e -> py_float text = Return (decimal_value m e).
Proof. intros H. unfold py_float. rewrite H. reflexivity. Qed.

Lemma py_float_malformed (text : string) :
  read_literal text = Malformed ->
  py_float text
  = Raise (ValueError ("could not convert string to float: " ++ py_repr text)).
Proof. intros H. unfold py_float. rewrite H. reflexivity. Qed.

(** What the three branches of lines 94-105 pass to [update_plot]: the
    floats of the three boxes, the submitted one read first. *)
Lemma submit_reads_boxes (box : nat) (text t0 t1 t2 : string) (x0 x1 x2 : R)
    (w : World) :
  (box < 3)%nat ->
  textboxes w = [t0; t1; t2] ->
  nth_error (textboxes w) box = Some text ->
  py_float t0 = Return x0 -> py_float t1 = Return x1 -> py_float t2 = Return x2 ->
  submit text (input_type_of box) w =
  try_except_ValueError (update_plot x0 x1 x2 ;; canvas_draw)%st
                        (fun e => print ("Error: " ++ e)) w.
Proof.
  intros Hbox Htb Hnth H0 H1 H2.
  destruct box as [|[|[|box]]]; [| | |lia];
    rewrite Htb in Hnth; cbn [nth_error] in Hnth;
    injection Hnth as <-;
    unfold submit, try_except_ValueError, input_type_of;
    cbn [String.eqb Ascii.eqb Bool.eqb];
    unfold bind at 1; unfold lift at 1;
    [ rewrite H0 | rewrite H1 | rewrite H2 ];
    unfold bind at 1; unfold bind at 1; unfold textbox_float at 1;
    rewrite Htb; cbn [nth_error];
    [ rewrite H1 | rewrite H0 | rewrite H0 ];
    unfold bind at 1; unfold textbox_float at 1;
    rewrite Htb; cbn [nth_error];
    [ rewrite H2 | rewrite H2 | rewrite H1 ];
    reflexivity.
Qed.

Lemma set_nth_nth_error {A : Type} (i : nat) (a : A) (l : list A) :
  (i < List.length l)%nat -> nth_error (set_nth i a l) i = Some a.
Proof.
  revert i; induction l as [|b l IH]; intros i Hi; cbn in Hi; [lia|].
  destruct i as [|i]; cbn; [reflexivity|]. apply IH; lia.
Qed.

Section OnSubmit.

Variables (box : nat) (text t0 t1 t2 : string) (w : World).
Hypothesis Hbox : (box < 3)%nat.
Hypothesis Hlen : List.length (textboxes w) = 3%nat.
Hypothesis Hboxes : set_nth box text (textboxes w) = [t0; t1; t2].

(** Text that is no number: the error is printed and nothing else of the
    plot or the report changes. *)
Lemma on_submit_not_a_number (msg : string) :
  py_float text = Raise (ValueError msg) ->
  on_submit box text w =
  (Return tt,
   mkWorld (ax w) (text_box w) [t0; t1; t2] (canvas_draws w)
           (stdout w ++ ["Error: " ++ msg]%string)).
Proof.
  intros Hf. unfold on_submit, bind, modify. rewrite Hboxes.
  unfold submit, try_except_ValueError, bind, lift. rewrite Hf.
  reflexivity.
Qed.

Variables x0 x1 x2 : R.
Hypothesis H0 : py_float t0 = Return x0.
Hypothesis H1 : py_float t1 = Return x1.
Hypothesis H2 : py_float t2 = Return x2.

Lemma on_submit_runs_update :
  on_submit box text w =
  try_except_ValueError (update_plot x0 x1 x2 ;; canvas_draw)%st
                        (fun e => print ("Error: " ++ e))
    (mkWorld (ax w) (text_box w) [t0; t1; t2] (canvas_draws w) (stdout w)).
Proof.
  unfold on_submit. unfold bind at 1. unfold modify at 1. rewrite Hboxes.
  apply (submit_reads_boxes box text t0 t1 t2 x0 x1 x2);
    try assumption; try reflexivity.
  cbn [textboxes]. rewrite <- Hboxes.
  apply set_nth_nth_error. lia.
Qed.

(** Numbers out of range: the error is caught and printed, the report and
    the limits stay, the canvas is not redrawn, and the axes have lost
    every arrow. *)
Lemma on_submit_out_of_range :
  out_of_range x0 x1 x2 = true ->
  on_submit box text w =
  (Return tt,
   mkWorld (cleared (ax w)) (text_box w) [t0; t1; t2] (canvas_draws w)
           (stdout w ++ ["Error: " ++ out_of_range_msg]%string)).
Proof.
  intros Hr. rewrite on_submit_runs_update.
  unfold try_except_ValueError. unfold bind at 1.
  rewrite (update_plot_out_of_range _ _ _ _ Hr).
  reflexivity.
Qed.


End OnSubmit.

(** ** The arrows and the magnitudes *)


Lemma coordinates_spec (P1_mag Q1_mag D_mag : R) :
  let v := coordinates P1_mag Q1_mag D_mag in
  vec_P v = np_array P1_mag 0 0 /\
  vec_Q1 v = np_array 0 Q1_mag 0 /\
  vec_S1 v = np_array P1_mag Q1_mag 0 /\
  vec_D v = np_array 0 0 D_mag /\
  vec_S2 v = np_array P1_mag Q1_mag D_mag /\
  vec_Q2 v = np_array 0 Q1_mag D_mag.
Proof.
  unfold coordinates, ndarray_add, ndarray_sub; cbn.
  repeat split; f_equal; ring.
Qed.










(** ** A rejected submission after the start of the program *)

Lemma startup_returns :
  exists m,
    calculations 1 (8 / 10) 1 = Return m /\
    startup = (Return tt, updated 1 (8 / 10) 1 m fresh_world).
Proof.
  apply update_plot_returns. unfold in_range; lra.
Qed.

Lemma drawn_labels_with_distortion (P1_mag Q1_mag D_mag : R) :
  D_mag > 0 ->
  map label (drawn P1_mag Q1_mag D_mag) = ["P"; "Q1"; "S1"; "D"; "Q2"; "S2"]%string.
Proof.
  intros HD. unfold drawn. cbv zeta.
  destruct (Rltb_spec 0 D_mag); [reflexivity | lra].
Qed.




(** C1 at a failing input.  The program starts and draws its six arrows;
    the user then submits "0" as the active power while the other boxes hold
    "0.8" and "1".  The ValueError is caught and printed, the report and the
    limits are as before and the canvas is not redrawn, but the axes hold no
    arrow any more: lines 8-9 removed all six before line 12 rejected the
    values. *)
Theorem out_of_range_submission_clears_arrows :
  exists w0 w1,
    startup = (Return tt, w0) /\
    map label (collections (ax w0)) = ["P"; "Q1"; "S1"; "D"; "Q2"; "S2"]%string /\
    on_submit 0 "0" w0 = (Return tt, w1) /\
    collections (ax w1) = [] /\
    text_box w1 = text_box w0 /\
    xlim (ax w1) = xlim (ax w0) /\
    canvas_draws w1 = canvas_draws w0 /\
    stdout w1 = ["Error: " ++ out_of_range_msg]%string.
Proof.
  destruct startup_returns as (m & _ & Hs).
  exists (updated 1 (8 / 10) 1 m fresh_world).
  eexists. split; [exact Hs|]. split.
  { unfold updated. cbv zeta. cbn [ax collections].
    apply drawn_labels_with_distortion; lra. }
  split.
  { apply on_submit_out_of_range
      with (x0 := decimal_value 0 0) (x1 := decimal_value 8 (-1))
           (x2 := decimal_value 1 0).
    - lia.
    - reflexivity.
    - reflexivity.
    - apply py_float_decimal. vm_compute. reflexivity.
    - apply py_float_decimal. vm_compute. reflexivity.
    - apply py_float_decimal. vm_compute. reflexivity.
    - apply out_of_range_true_iff. left.
      unfold decimal_value. cbn. lra. }
  repeat split; reflexivity.
Qed.

(** The submission of text that is no number, from the same start: the plot
    keeps its six arrows. *)
Example not_a_number_submission_keeps_arrows :
  exists w0 w1,
    startup = (Return tt, w0) /\
    on_submit 0 "abc" w0 = (Return tt, w1) /\
    ax w1 = ax w0 /\ text_box w1 = text_box w0 /\
    canvas_draws w1 = canvas_draws w0 /\
    stdout w1 = ["Error: could not convert string to float: 'abc'"]%string.
Proof.
  destruct startup_returns as (m & _ & Hs).
  exists (updated 1 (8 / 10) 1 m fresh_world).
  eexists. split; [exact Hs|]. split.
  { apply on_submit_not_a_number with (t0 := "abc"%string) (t1 := "0.8"%string)
                                      (t2 := "1"%string).
    - reflexivity.
    - apply py_float_malformed. vm_compute. reflexivity. }
  repeat split; reflexivity.
Qed.

(** ** The worked examples of the spec *)

Lemma sqrt_of_square (x y : R) : 0 <= y -> x = y * y -> sqrt x = y.
Proof. intros Hy ->. apply sqrt_square; exact Hy. Qed.

Lemma tan_acos_ratio (c s : R) :
  0 < c < 1 -> 0 <= s -> 1 - c * c = s * s -> tan (acos c) = s / c.
Proof.
  intros Hc Hs E. rewrite tan_acos by lra.
  f_equal. apply sqrt_of_square; [exact Hs|]. unfold Rsqr. exact E.
Qed.

(** P = 1, cos(phi) = 0.8, D = 1: Q1 = 0.75, S1 = 1.25, Q2 = 1.25,
    S2 = sqrt(41)/4 = 1.6008 and the power factor is 4/sqrt(41) = 0.6247. *)
Example magnitudes_1_08_1 :
  exists m,
    calculations 1 (8 / 10) 1 = Return m /\
    Q1_mag m = 3 / 4 /\ S1_mag m = 5 / 4 /\ Q2_mag m = 5 / 4 /\
    S2_mag m = sqrt 41 / 4 /\ theta m = acos (4 / sqrt 41).
Proof.
  assert (HP : 1 > 0) by lra. assert (Hc : 0 < 8 / 10 < 1) by lra.
  destruct (calculations_returns _ _ 1 HP Hc) as (m & Hm & _ & HQ1 & HS1 & _ & Hnz).
  destruct Hnz as (HS2 & HQ2 & Ht); [lra|].
  assert (EQ1 : Q1_mag m = 3 / 4).
  { rewrite HQ1, (tan_acos_ratio (8 / 10) (6 / 10)); lra. }
  assert (ES1 : S1_mag m = 5 / 4).
  { rewrite HS1, EQ1. apply sqrt_of_square; lra. }
  assert (EQ2 : Q2_mag m = 5 / 4).
  { rewrite HQ2, EQ1. apply sqrt_of_square; lra. }
  assert (H41 : 0 < sqrt 41) by (apply sqrt_lt_R0; lra).
  assert (ES2 : S2_mag m = sqrt 41 / 4).
  { rewrite HS2, ES1. apply sqrt_of_square; [lra|].
    replace (sqrt 41 / 4 * (sqrt 41 / 4)) with (sqrt 41 * sqrt 41 / 16) by field.
    rewrite sqrt_sqrt by lra. lra. }
  exists m. repeat split; try assumption.
  rewrite Ht, ES2. f_equal. field. lra.
Qed.

(** P = 5, cos(phi) = 0.6, D = 0: Q1 = 6.6667, S1 = 8.3333 and S2, Q2 and
    theta are 0. *)
Example magnitudes_5_06_0 :
  exists m,
    calculations 5 (6 / 10) 0 = Return m /\
    Q1_mag m = 20 / 3 /\ S1_mag m = 25 / 3 /\
    S2_mag m = 0 /\ Q2_mag m = 0 /\ theta m = 0.
Proof.
  assert (HP : 5 > 0) by lra. assert (Hc : 0 < 6 / 10 < 1) by lra.
  destruct (calculations_returns _ _ 0 HP Hc) as (m & Hm & _ & HQ1 & HS1 & Hz & _).
  destruct (Hz eq_refl) as (Z2 & ZQ & Zt).
  assert (EQ1 : Q1_mag m = 20 / 3).
  { rewrite HQ1, (tan_acos_ratio (6 / 10) (8 / 10)); lra. }
  exists m. repeat split; try assumption.
  rewrite HS1, EQ1. apply sqrt_of_square; lra.
Qed.

(** [float] on the initial text of the three boxes and on some other
    spellings. *)
Example read_literal_samples :
  read_literal "1" = Decimal 1 0 /\
  read_literal "0.8" = Decimal 8 (-1) /\
  read_literal " -1.5e3 " = Decimal (-15) 2 /\
  read_literal "1_000.5" = Decimal 10005 (-1) /\
  read_literal ".5" = Decimal 5 (-1) /\
  read_literal "5." = Decimal 5 0 /\
  read_literal "nan" = NonFinite /\
  read_literal "-Inf" = NonFinite /\
  read_literal "" = Malformed /\
  read_literal "abc" = Malformed /\
  read_literal "1e" = Malformed /\
  read_literal "1__0" = Malformed.
Proof. vm_compute. repeat split; reflexivity. Qed.

(** Blanks: a tab and a newline are stripped, the control character 28 is
    not. *)
Example read_literal_blanks :
  read_literal (String (ascii_of_nat 9) ("1" ++ nl)) = Decimal 1 0 /\
  read_literal (String (ascii_of_nat 28) "1") = Malformed.
Proof. vm_compute. split; reflexivity. Qed.

(** The text as the message of [float] shows it. *)
Example py_repr_samples :
  py_repr "abc" = "'abc'"%string /\
  py_repr " 1x " = "' 1x '"%string /\
  py_repr "a\b" = "'a\\b'"%string /\
  py_repr (String (ascii_of_nat 9) "1") = "'\t1'"%string /\
  py_repr (String (ascii_of_nat 28) "1") = "'\x1c1'"%string /\
  py_repr "it's" = String double_quote ("it's" ++ String double_quote EmptyString).
Proof. vm_compute. repeat split; reflexivity. Qed.

Example py_float_08 : py_float "0.8" = Return (8 / 10).
Proof.
  rewrite (py_float_decimal "0.8" 8 (-1)) by (vm_compute; reflexivity).
  reflexivity.
Qed.

(** ** The tangent of an arccosine *)



(** * Further properties of the plot *)





(** X5.  The arrays of lines 30-35 form right triangles that close: for all
    values, P + Q1 = S1, S1 + D = S2 and P + Q2 = S2, while P, Q1 and D are
    mutually orthogonal, S1 is orthogonal to D and P to Q2; hence
    |S2|^2 = |P|^2 + |Q2|^2 = |S1|^2 + |D|^2. *)
Theorem triangles_close_at_right_angles (P1_mag Q1_mag D_mag : R) :
  let v := coordinates P1_mag Q1_mag D_mag in
  (ndarray_add (vec_P v) (vec_Q1 v) = vec_S1 v /\
   ndarray_add (vec_S1 v) (vec_D v) = vec_S2 v /\
   ndarray_add (vec_P v) (vec_Q2 v) = vec_S2 v) /\
  (dot (vec_P v) (vec_Q1 v) = 0 /\ dot (vec_P v) (vec_D v) = 0 /\
   dot (vec_Q1 v) (vec_D v) = 0 /\ dot (vec_S1 v) (vec_D v) = 0 /\
   dot (vec_P v) (vec_Q2 v) = 0) /\
  (norm (vec_S2 v) ^ 2 = norm (vec_P v) ^ 2 + norm (vec_Q2 v) ^ 2 /\
   norm (vec_S2 v) ^ 2 = norm (vec_S1 v) ^ 2 + norm (vec_D v) ^ 2).
Proof.
  intros v.
  destruct (coordinates_spec P1_mag Q1_mag D_mag) as (EP & EQ1 & ES1 & ED & ES2 & EQ2).
  fold v in EP, EQ1, ES1, ED, ES2, EQ2.
  rewrite EP, EQ1, ES1, ED, ES2, EQ2.
  split; [|split].
  - unfold ndarray_add; cbn [item0 item1 item2].
    repeat split; f_equal; ring.
  - unfold dot; cbn [item0 item1 item2]. repeat split; ring.
  - unfold norm; cbn [item0 item1 item2].
    rewrite !pow2_sqrt by nra. split; ring.
Qed.

(** X6.  The legend is made once: an update on an input in range keeps a
    legend the axes already have, and makes one only when there is none,
    at "center left" with anchor (1.1, 0.5), from the labels of the arrows
    it has just drawn. *)
Theorem legend_made_once (P1_mag cos_fi D_mag : R) (w : World) :
  in_range P1_mag cos_fi D_mag ->
  exists w',
    update_plot P1_mag cos_fi D_mag w = (Return tt, w') /\
    (forall l, legend (ax w) = Some l -> legend (ax w') = Some l) /\
    (legend (ax w) = None ->
       legend (ax w')
       = Some (mkLegend "center left" (11 / 10, 1 / 2)
                        (map label (collections (ax w'))))).
Proof.
  intros Hr.
  destruct (update_plot_returns _ _ _ w Hr) as (m & _ & Hu).
  exists (updated P1_mag cos_fi D_mag m w).
  split; [exact Hu|].
  unfold updated. cbv zeta. cbn [ax legend collections].
  split.
  - intros l Hl. rewrite Hl. reflexivity.
  - intros Hl. rewrite Hl. reflexivity.
Qed.

Lemma legend_made_once_witness :
  in_range 5 (6 / 10) 0 /\
  exists w',
    update_plot 5 (6 / 10) 0 (snd startup) = (Return tt, w') /\
    (forall l, legend (ax (snd startup)) = Some l -> legend (ax w') = Some l) /\
    (legend (ax (snd startup)) = None ->
       legend (ax w')
       = Some (mkLegend "center left" (11 / 10, 1 / 2)
                        (map label (collections (ax w'))))).
Proof.
  assert (Hr : in_range 5 (6 / 10) 0) by (unfold in_range; lra).
  split; [exact Hr|].
  apply (legend_made_once 5 (6 / 10) 0 (snd startup) Hr).
Defined.

(** X7.  An update on values out of range raises the "Values out of range"
    ValueError with both artist lists of the axes empty, and changes nothing
    else: limits, axis labels, title, legend, report, input boxes, redraw
    count and printed lines are as before the call. *)
Theorem rejected_update_frame (P1_mag cos_fi D_mag : R) (w : World) :
  P1_mag <= 0 \/ D_mag < 0 \/ ~ (0 < cos_fi < 1) ->
  exists w',
    update_plot P1_mag cos_fi D_mag w = (Raise (ValueError out_of_range_msg), w') /\
    collections (ax w') = [] /\ lines (ax w') = [] /\
    xlim (ax w') = xlim (ax w) /\ ylim (ax w') = ylim (ax w) /\
    zlim (ax w') = zlim (ax w) /\
    xlabel (ax w') = xlabel (ax w) /\ ylabel (ax w') = ylabel (ax w) /\
    zlabel (ax w') = zlabel (ax w) /\ title (ax w') = title (ax w) /\
    legend (ax w') = legend (ax w) /\
    text_box w' = text_box w /\ textboxes w' = textboxes w /\
    canvas_draws w' = canvas_draws w /\ stdout w' = stdout w.
Proof.
  intros H. apply out_of_range_true_iff in H.
  exists (with_ax cleared w).
  split; [apply update_plot_out_of_range; exact H|].
  destruct w as [a t tb n out]. destruct a.
  repeat split; reflexivity.
Qed.

Lemma rejected_update_frame_witness :
  (1 <= 0 \/ -1 < 0 \/ ~ (0 < 4 / 5 < 1)) /\
  exists w',
    update_plot 1 (4 / 5) (-1) (snd startup)
    = (Raise (ValueError out_of_range_msg), w') /\
    collections (ax w') = [] /\ lines (ax w') = [] /\
    xlim (ax w') = xlim (ax (snd startup)) /\ ylim (ax w') = ylim (ax (snd startup)) /\
    zlim (ax w') = zlim (ax (snd startup)) /\
    xlabel (ax w') = xlabel (ax (snd startup)) /\
    ylabel (ax w') = ylabel (ax (snd startup)) /\
    zlabel (ax w') = zlabel (ax (snd startup)) /\
    title (ax w') = title (ax (snd startup)) /\
    legend (ax w') = legend (ax (snd startup)) /\
    text_box w' = text_box (snd startup) /\ textboxes w' = textboxes (snd startup) /\
    canvas_draws w' = canvas_draws (snd startup) /\ stdout w' = stdout (snd startup).
Proof.
  assert (H : 1 <= 0 \/ -1 < 0 \/ ~ (0 < 4 / 5 < 1)) by (right; left; lra).
  split; [exact H|].
  apply (rejected_update_frame 1 (4 / 5) (-1) (snd startup) H).
Defined.



(** * Further properties of submissions *)

Lemma bind_Return {A B : Type} (m : M A) (k : A -> M B) (w w' : World) (a : A) :
  m w = (Return a, w') -> bind m k w = k a w'.
Proof. intros H. unfold bind. rewrite H. reflexivity. Qed.

Lemma bind_Raise {A B : Type} (m : M A) (k : A -> M B) (w w' : World) (e : exn) :
  m w = (Raise e, w') -> bind m k w = (Raise e, w').
Proof. intros H. unfold bind. rewrite H. reflexivity. Qed.

Lemma textbox_float_pure (i : nat) (w : World) :
  exists o, textbox_float i w = (o, w).
Proof.
  unfold textbox_float. destruct (nth_error (textboxes w) i); eexists; reflexivity.
Qed.

Lemma update_plot_cases (P1_mag cos_fi D_mag : R) (w : World) :
  update_plot P1_mag cos_fi D_mag w
  = (Raise (ValueError out_of_range_msg), with_ax cleared w) \/
  exists m,
    in_range P1_mag cos_fi D_mag /\
    calculations P1_mag cos_fi D_mag = Return m /\
    update_plot P1_mag cos_fi D_mag w = (Return tt, updated P1_mag cos_fi D_mag m w).
Proof.
  destruct (out_of_range P1_mag cos_fi D_mag) eqn:E.
  - left. apply update_plot_out_of_range; exact E.
  - right. apply out_of_range_false_iff in E.
    destruct (update_plot_returns _ _ _ w E) as (m & Hm & Hu).
    exists m. split; [exact E | split; [exact Hm | exact Hu]].
Qed.

Lemma update_then_draw (P1_mag cos_fi D_mag : R) (w : World) :
  (update_plot P1_mag cos_fi D_mag ;; canvas_draw)%st w
  = (Raise (ValueError out_of_range_msg), with_ax cleared w) \/
  exists m,
    in_range P1_mag cos_fi D_mag /\
    calculations P1_mag cos_fi D_mag = Return m /\
    (update_plot P1_mag cos_fi D_mag ;; canvas_draw)%st w
    = (Return tt,
       let w' := updated P1_mag cos_fi D_mag m w in
       mkWorld (ax w') (text_box w') (textboxes w) (S (canvas_draws w)) (stdout w)).
Proof.
  destruct (update_plot_cases P1_mag cos_fi D_mag w) as [H | (m & Hr & Hm & H)].
  - left. apply bind_Raise. exact H.
  - right. exists m. split; [exact Hr|]. split; [exact Hm|].
    rewrite (bind_Return _ _ _ _ _ H). reflexivity.
Qed.

(** Whatever the text and the box, [submit] leaves the world in one of
    three ways: plot and report untouched, arrows removed and the rest
    untouched, or the plot and report of an input in range with one more
    call of [fig.canvas.draw()]. *)
Lemma submit_cases (text input_type : string) (w : World) :
  submit_leaves w (snd (submit text input_type w)).
Proof.
  assert (Hsame : forall out, submit_leaves w
            (mkWorld (ax w) (text_box w) (textboxes w) (canvas_draws w) out))
    by (intros; constructor).
  assert (Hw : submit_leaves w w).
  { destruct w as [a t tb n out]. exact (leaves_plot (mkWorld a t tb n out) out). }
  assert (Htail : forall P c D,
            submit_leaves w
              (snd (match (update_plot P c D ;; canvas_draw)%st w with
                    | (Raise (ValueError msg), w') => print ("Error: " ++ msg) w'
                    | r => r
                    end))).
  { intros P c D.
    destruct (update_then_draw P c D w) as [H | (m & Hr & Hm & H)]; rewrite H.
    - exact (leaves_cleared w _).
    - exact (leaves_updated w P c D m Hr Hm). }
  unfold submit, try_except_ValueError.
  unfold bind at 1. unfold lift at 1.
  destruct (py_float text) as [value | e];
    [| destruct e; cbn [snd]; first [exact Hw | apply Hsame]].
  destruct (String.eqb input_type "P1");
    [| destruct (String.eqb input_type "cos_fi");
       [| destruct (String.eqb input_type "D"); [| exact Hw]]].
  all: unfold bind at 1; unfold bind at 1;
    match goal with |- context [textbox_float ?i ?w0] =>
      destruct (textbox_float_pure i w0) as (o1 & ->) end;
    (destruct o1 as [v1 | e1];
     [| destruct e1; cbn [snd]; first [exact Hw | apply Hsame]]);
    unfold bind at 1;
    match goal with |- context [textbox_float ?i ?w0] =>
      destruct (textbox_float_pure i w0) as (o2 & ->) end;
    (destruct o2 as [v2 | e2];
     [| destruct e2; cbn [snd]; first [exact Hw | apply Hsame]]);
    unfold ret at 1; apply Htail.
Qed.

Lemma set_nth_length {A : Type} (i : nat) (a : A) (l : list A) :
  List.length (set_nth i a l) = List.length l.
Proof.
  revert i; induction l as [|b l IH]; intros i; [destruct i; reflexivity|].
  destruct i as [|i]; cbn; [reflexivity|]. rewrite IH; reflexivity.
Qed.

Lemma consistent_leaves (w w' : World) :
  consistent w -> submit_leaves w w' -> consistent w'.
Proof.
  intros (Hlen & Hlines & Hleg & Hx & Hy & Hz & Ht & P & c & D & m & Hr & Hm & Hs) Hl.
  destruct Hs as (Htb & Hxl & Hyl & Hzl & Hcol).
  destruct Hl as [out | out | P' c' D' m' Hr' Hm'].
  - unfold consistent, shows. cbn [ax text_box textboxes].
    repeat (split; [assumption|]).
    exists P, c, D, m. repeat (split; [assumption|]). exact Hcol.
  - unfold consistent, shows, cleared.
    cbn [ax text_box textboxes lines legend xlabel ylabel zlabel title xlim ylim
         zlim collections].
    repeat (split; [assumption || reflexivity|]).
    exists P, c, D, m. repeat (split; [assumption|]). right; reflexivity.
  - unfold consistent, shows, updated. cbv zeta.
    cbn [ax text_box textboxes lines legend xlabel ylabel zlabel title xlim ylim
         zlim collections].
    rewrite Hleg.
    repeat (split; [assumption || reflexivity|]).
    exists P', c', D', m'. repeat (split; [assumption || reflexivity|]).
    left; reflexivity.
Qed.

Lemma consistent_on_submit (box : nat) (text : string) (w : World) :
  consistent w -> consistent (snd (on_submit box text w)).
Proof.
  intros Hc. unfold on_submit, bind, modify.
  apply consistent_leaves
    with (w := mkWorld (ax w) (text_box w) (set_nth box text (textboxes w))
                       (canvas_draws w) (stdout w)).
  - destruct Hc as (Hlen & Hrest). split; [|exact Hrest].
    cbn [textboxes]. rewrite set_nth_length. exact Hlen.
  - apply submit_cases.
Qed.

Lemma consistent_startup : consistent (snd startup).
Proof.
  destruct startup_returns as (m & Hm & Hs). rewrite Hs. cbn [snd].
  unfold consistent, shows, updated. cbv zeta.
  cbn [ax text_box textboxes lines legend xlabel ylabel zlabel title xlim ylim
       zlim collections fresh_world].
  rewrite drawn_labels_with_distortion by lra.
  repeat (split; [reflexivity|]).
  exists 1, (8 / 10), 1, m.
  split; [unfold in_range; lra|]. split; [exact Hm|].
  repeat (split; [reflexivity|]). left; reflexivity.
Qed.

Lemma drawn_length (P1_mag Q1_mag D_mag : R) :
  List.length (drawn P1_mag Q1_mag D_mag) = 3%nat \/
  List.length (drawn P1_mag Q1_mag D_mag) = 6%nat.
Proof.
  unfold drawn. cbv zeta.
  destruct (Rltb_spec 0 D_mag); [right | left]; reflexivity.
Qed.

(** X9.  Whatever plain texts the user submits after the start of the
    program (ASCII text that is no number, or a decimal of at most 15
    digits with an exponent within 100 of zero), in whatever boxes and in
    whatever order, the world stays consistent: the report is that of some
    input in range, the three axis limits are those of the same input, the
    axes hold either the arrows of that input or no arrow (0, 3 or 6 arrows
    in all), never a plain line; the axis labels, the title and the legend
    made at the start never change; and there are always three input
    boxes. *)
Theorem plot_stays_consistent (events : list (nat * string)) :
  Forall (fun ev => plain_text (snd ev) = true) events ->
  consistent (submissions events (snd startup)) /\
  (List.length (collections (ax (submissions events (snd startup)))) = 0%nat \/
   List.length (collections (ax (submissions events (snd startup)))) = 3%nat \/
   List.length (collections (ax (submissions events (snd startup)))) = 6%nat).
Proof.
  intros _.
  assert (H : forall w, consistent w -> consistent (submissions events w)).
  { induction events as [|[box text] events IH]; intros w Hw; cbn [submissions].
    - exact Hw.
    - apply IH. apply consistent_on_submit. exact Hw. }
  pose proof (H _ consistent_startup) as Hc.
  split; [exact Hc|].
  destruct Hc as (_ & _ & _ & _ & _ & _ & _ & P & c & D & m & _ & _ & Hs).
  destruct Hs as (_ & _ & _ & _ & [-> | ->]).
  - right. apply drawn_length.
  - left. reflexivity.
Qed.

Lemma plot_stays_consistent_witness :
  Forall (fun ev => plain_text (snd ev) = true)
         [(0%nat, "0"); (1%nat, "abc"); (0%nat, "2.5"); (2%nat, "0")]%string /\
  consistent
    (submissions [(0%nat, "0"); (1%nat, "abc"); (0%nat, "2.5"); (2%nat, "0")]%string
                 (snd startup)).
Proof.
  assert (Hp : Forall (fun ev => plain_text (snd ev) = true)
                      [(0%nat, "0"); (1%nat, "abc"); (0%nat, "2.5"); (2%nat, "0")]%string)
    by (repeat constructor).
  split; [exact Hp|].
  exact (proj1 (plot_stays_consistent _ Hp)).
Defined.

(** X10.  When the three boxes hold plain numbers that fail the test of
    line 12, a submission in any of the boxes catches the ValueError: it
    returns, prints the one line "Error: Values out of range...", does not
    reach the [fig.canvas.draw()] of line 109, leaves the report, the
    limits, the axis labels, the title and the legend as they were, and
    leaves the axes without any arrow. *)
Theorem out_of_range_submission_frame
    (box : nat) (text t0 t1 t2 : string) (x0 x1 x2 : R) (w : World) :
  (box < 3)%nat -> List.length (textboxes w) = 3%nat ->
  set_nth box text (textboxes w) = [t0; t1; t2] ->
  plain_text t0 = true -> plain_text t1 = true -> plain_text t2 = true ->
  py_float t0 = Return x0 -> py_float t1 = Return x1 -> py_float t2 = Return x2 ->
  x0 <= 0 \/ x2 < 0 \/ ~ (0 < x1 < 1) ->
  exists w',
    on_submit box text w = (Return tt, w') /\
    textboxes w' = [t0; t1; t2] /\
    stdout w' = stdout w ++ ["Error: " ++ out_of_range_msg]%string /\
    canvas_draws w' = canvas_draws w /\
    text_box w' = text_box w /\
    ax w' = cleared (ax w) /\
    collections (ax w') = [].
Proof.
  intros Hbox Hlen Hboxes _ _ _ F0 F1 F2 Hout.
  apply out_of_range_true_iff in Hout.
  rewrite (on_submit_out_of_range box text t0 t1 t2 w Hbox Hlen Hboxes
             x0 x1 x2 F0 F1 F2 Hout).
  eexists. split; [reflexivity|].
  repeat split; reflexivity.
Qed.

Lemma py_float_2 : py_float "2" = Return 2.
Proof.
  rewrite (py_float_decimal "2" 2 0) by (vm_compute; reflexivity).
  reflexivity.
Defined.

Lemma py_float_1 : py_float "1" = Return 1.
Proof.
  rewrite (py_float_decimal "1" 1 0) by (vm_compute; reflexivity).
  reflexivity.
Defined.

Lemma out_of_range_submission_frame_witness :
  exists w',
    on_submit 0 "-2" fresh_world = (Return tt, w') /\
    textboxes w' = ["-2"; "0.8"; "1"]%string /\
    stdout w' = stdout fresh_world ++ ["Error: " ++ out_of_range_msg]%string /\
    canvas_draws w' = canvas_draws fresh_world /\
    text_box w' = text_box fresh_world /\
    ax w' = cleared (ax fresh_world) /\
    collections (ax w') = [].
Proof.
  apply (out_of_range_submission_frame 0 "-2" "-2" "0.8" "1"
           (decimal_value (-2) 0) (8 / 10) 1 fresh_world).
  - lia.
  - reflexivity.
  - reflexivity.
  - reflexivity.
  - reflexivity.
  - reflexivity.
  - apply py_float_decimal. vm_compute. reflexivity.
  - exact py_float_08.
  - exact py_float_1.
  - left. unfold decimal_value. cbn. lra.
Defined.

(** X11.  Text that is no number in any of the three boxes blocks every
    submission, also one of a good value in another box: when each box
    holds a number or text [float] rejects with a ValueError, and at least
    one holds such text, the submission returns, prints one "Error: ..."
    line with the message of a rejected box, and leaves the axes, the
    report and the redraw count as they were. *)
Theorem unreadable_box_blocks_submission
    (box : nat) (text t0 t1 t2 : string) (w : World) :
  (box < 3)%nat -> List.length (textboxes w) = 3%nat ->
  set_nth box text (textboxes w) = [t0; t1; t2] ->
  ((exists x, py_float t0 = Return x) \/ (exists msg, py_float t0 = Raise (ValueError msg))) ->
  ((exists x, py_float t1 = Return x) \/ (exists msg, py_float t1 = Raise (ValueError msg))) ->
  ((exists x, py_float t2 = Return x) \/ (exists msg, py_float t2 = Raise (ValueError msg))) ->
  ((exists msg, py_float t0 = Raise (ValueError msg)) \/
   (exists msg, py_float t1 = Raise (ValueError msg)) \/
   (exists msg, py_float t2 = Raise (ValueError msg))) ->
  exists w' msg,
    on_submit box text w = (Return tt, w') /\
    (py_float t0 = Raise (ValueError msg) \/ py_float t1 = Raise (ValueError msg) \/
     py_float t2 = Raise (ValueError msg)) /\
    stdout w' = stdout w ++ ["Error: " ++ msg]%string /\
    ax w' = ax w /\ text_box w' = text_box w /\
    canvas_draws w' = canvas_draws w /\ textboxes w' = [t0; t1; t2].
Proof.
  intros Hbox Hlen Hboxes G0 G1 G2 Hbad.
  assert (Hnth : nth_error [t0; t1; t2] box = Some text).
  { rewrite <- Hboxes. apply set_nth_nth_error. lia. }
  unfold on_submit. unfold bind at 1. unfold modify at 1. rewrite Hboxes.
  unfold submit, try_except_ValueError.
  destruct G0 as [(v0 & E0) | (m0 & E0)], G1 as [(v1 & E1) | (m1 & E1)],
           G2 as [(v2 & E2) | (m2 & E2)];
    try (exfalso; destruct Hbad as [(mm & Hb) | [(mm & Hb) | (mm & Hb)]]; congruence);
    destruct box as [|[|[|box]]]; try lia;
    cbn [nth_error] in Hnth; injection Hnth as <-;
    unfold input_type_of; cbn [String.eqb Ascii.eqb Bool.eqb];
    unfold bind, lift, textbox_float; cbn [textboxes nth_error];
    rewrite ?E0, ?E1, ?E2; unfold ret; rewrite ?E0, ?E1, ?E2;
    unfold print, modify; cbn [ax text_box textboxes canvas_draws stdout];
    eexists; eexists; (split; [reflexivity|]);
    cbn [ax text_box textboxes canvas_draws stdout];
    first
      [ solve [split; [left; reflexivity | repeat split; reflexivity]]
      | solve [split; [right; left; reflexivity | repeat split; reflexivity]]
      | solve [split; [right; right; reflexivity | repeat split; reflexivity]] ].
Qed.

Lemma unreadable_box_blocks_submission_witness :
  exists w' msg,
    on_submit 0 "2" (mkWorld (ax fresh_world) (text_box fresh_world)
                             ["1"; "abc"; "1"]%string 0 []) = (Return tt, w') /\
    (py_float "2" = Raise (ValueError msg) \/ py_float "abc" = Raise (ValueError msg) \/
     py_float "1" = Raise (ValueError msg)) /\
    stdout w' = [] ++ ["Error: " ++ msg]%string /\
    ax w' = ax fresh_world /\ text_box w' = text_box fresh_world /\
    canvas_draws w' = 0%nat /\ textboxes w' = ["2"; "abc"; "1"]%string.
Proof.
  apply (unreadable_box_blocks_submission 0 "2" "2" "abc" "1"
           (mkWorld (ax fresh_world) (text_box fresh_world)
                    ["1"; "abc"; "1"]%string 0 [])).
  - lia.
  - reflexivity.
  - reflexivity.
  - left. exists 2. exact py_float_2.
  - right. eexists. apply py_float_malformed. vm_compute. reflexivity.
  - left. exists 1. exact py_float_1.
  - right. left. eexists. apply py_float_malformed. vm_compute. reflexivity.
Defined.

(** X12.  [submit] has no branch for an input type other than 'P1',
    'cos_fi' and 'D': with numeric text such a call reaches [update_plot]
    with its three variables unbound, and the UnboundLocalError is not a
    ValueError, so it is not caught; nothing is drawn, printed or changed. *)
Theorem unknown_input_type_escapes (text input_type : string) (v : R) (w : World) :
  input_type <> "P1"%string -> input_type <> "cos_fi"%string ->
  input_type <> "D"%string ->
  py_float text = Return v ->
  submit text input_type w = (Raise UnboundLocalError, w).
Proof.
  intros N1 N2 N3 Hv.
  apply String.eqb_neq in N1. apply String.eqb_neq in N2. apply String.eqb_neq in N3.
  unfold submit, try_except_ValueError.
  unfold bind at 1. unfold lift at 1. rewrite Hv.
  rewrite N1, N2, N3.
  reflexivity.
Qed.

Lemma unknown_input_type_escapes_witness :
  submit "2" "Q" fresh_world = (Raise UnboundLocalError, fresh_world).
Proof.
  apply (unknown_input_type_escapes "2" "Q" 2 fresh_world);
    try discriminate.
  exact py_float_2.
Defined.

(** * The calculation at the ends of the doubles' range

    Lines 12-27 and 87 evaluated on doubles.  The inputs pass the test of
    line 12; the squares of lines 18, 25 and 26 are taken without scaling,
    so they overflow for magnitudes above about 1e154 and underflow to zero
    below about 1e-162, and what the formulas give in exact arithmetic is
    lost. *)

Module Float64Facts.
Import PrimFloat Float64.
Local Open Scope float_scope.

Ltac at_each_tan_fi :=
  unfold tan_fi_08;
  let l := eval vm_compute in (neighbours 4 0.75) in
  change (neighbours 4 0.75) with l;
  repeat first [ apply Forall_nil | apply Forall_cons | split | eexists
               | reflexivity ].

(** The value glibc gives for [np.tan(np.arccos(0.8))] is among the
    doubles the theorems below range over. *)
Example tan_fi_08_glibc : In 0x1.7fffffffffffep-1 tan_fi_08.
Proof. vm_compute. tauto. Qed.

(** C2 at a failing input.  P = 1e200, cos(phi) = 0.8 and D = 1 pass the
    test of line 12, and [P1_mag ** 2] of line 18 then raises OverflowError,
    whatever [np.tan(fi)] is: the update does not return.  The error is no
    ValueError, so the [except ValueError] of [submit] lets it through. *)
Theorem in_range_update_overflows (tan_fi : float) :
  out_of_range huge 0.8 1 = false /\
  calculations huge tan_fi 1 = Raise OverflowError /\
  forall (handler : string -> M unit) (w : World),
    try_except_ValueError (raise OverflowError) handler w = (Raise OverflowError, w).
Proof.
  split; [reflexivity|]. split; [reflexivity|].
  intros handler w. reflexivity.
Qed.

(** C3 at a failing input.  P = 1e-200, cos(phi) = 0.8 (and D = 1e-200)
    pass the test of line 12; Q1 is positive, both squares of line 18
    underflow to zero, and S1 = 0 is below P. *)
Theorem fundamental_triangle_underflows :
  Forall (fun tan_fi =>
    out_of_range tiny 0.8 tiny = false /\
    exists m,
      calculations tiny tan_fi tiny = Return m /\
      (0 <? Q1_mag m) = true /\
      S1_mag m = 0 /\
      (S1_mag m <? tiny) = true) tan_fi_08.
Proof. at_each_tan_fi. Qed.

(** C6 at a failing input.  P = 1e-200, cos(phi) = 0.8, D = 1e-200, an
    input in range with D > 0: the squares of line 26 underflow, and
    Q2 = 0 is below Q1, which is positive. *)
Theorem distortion_shrinks_by_underflow :
  Forall (fun tan_fi =>
    out_of_range tiny 0.8 tiny = false /\ (0 <? tiny) = true /\
    exists m,
      calculations tiny tan_fi tiny = Return m /\
      (0 <? Q1_mag m) = true /\
      Q2_mag m = 0 /\
      (Q2_mag m <? Q1_mag m) = true) tan_fi_08.
Proof. at_each_tan_fi. Qed.

(** C7 at two failing inputs, both in range with D > 0.  At P = D = 1e-200
    the squares of line 25 underflow, S2 is 0 and the power factor P / S2
    of line 87 is [inf].  At P = D = 1e154 the sum of the squares of line
    25 overflows, S2 is [inf] and the power factor is 0.  Neither lies in
    (0, 1]. *)
Theorem power_factor_leaves_unit_interval :
  Forall (fun tan_fi =>
    out_of_range tiny 0.8 tiny = false /\ (0 <? tiny) = true /\
    exists m,
      calculations tiny tan_fi tiny = Return m /\
      S2_mag m = 0 /\ power_factor m = Some infinity) tan_fi_08 /\
  Forall (fun tan_fi =>
    out_of_range large 0.8 large = false /\ (0 <? large) = true /\
    exists m,
      calculations large tan_fi large = Return m /\
      S2_mag m = infinity /\ power_factor m = Some 0) tan_fi_08.
Proof. split; at_each_tan_fi. Qed.

(** C10 at a failing input.  P = 1e-200, cos(phi) = 0.8, D = 1e-200 is in
    range with D > 0, so lines 25-27 and 87 are run: the divisor S2 is 0,
    below D, the quotient P / S2 is [inf], and [np.arccos] has no value
    there (theta is [nan]). *)
Theorem division_by_underflowed_S2 :
  Forall (fun tan_fi =>
    out_of_range tiny 0.8 tiny = false /\ (tiny =? 0) = false /\
    exists m r,
      calculations tiny tan_fi tiny = Return m /\
      S2_mag m = 0 /\ (S2_mag m <? tiny) = true /\
      power_factor m = Some r /\ r = infinity /\
      arccos_defined r = false) tan_fi_08.
Proof. at_each_tan_fi. Qed.

End Float64Facts.
